(** * A shallow embedding of the OpenSearch repository SDK (opensearch.go)

    The development follows the Go source function by function.  Go values
    of type [interface{}] are a tagged union, Go [int] is a 64-bit integer
    carried by [Z] with its wrap-around written out, maps are finite maps,
    and the effects of the code (mutation through the three pointer
    arguments, logging, deferred calls, run-time panics, process exit) are
    threaded through a small state-and-panic monad.  The collaborators the
    package imports (the engine client, encoding/json, the pagination
    metadata accessors, the bulk indexer) are interfaces whose answers are
    left arbitrary. *)

From Stdlib Require Import ZArith QArith Qround Lia.
From stdpp Require Import base option strings gmap list.

Close Scope Q_scope.
Open Scope Z_scope.
Set Warnings "-register-all".

(** ** Go values *)

Definition bytes := list Byte.byte.

(** The Go interface type [error]; the nil error is [None] of
    [option error]. *)
Definition error := string.

(** A value of static type [interface{}], by dynamic type.  [VFloat64]
    carries the (finite) number a float64 denotes; encoding/json only ever
    produces finite numbers.  [VMap] and [VSlice] are only read below, so
    a nil map or slice is the empty one.  [VOther] is any other dynamic
    type. *)
Inductive value :=
| VNil
| VBool (b : bool)
| VInt (n : Z)
| VFloat64 (q : Q)
| VString (s : string)
| VSlice (l : list value)
| VMap (m : gmap string value)
| VOther (type_name : string).

Definition min_int : Z := - 2 ^ 63.
Definition max_int : Z := 2 ^ 63 - 1.

(** Two's-complement wrap-around of a 64-bit [int]. *)
Definition wrap_int (z : Z) : Z := (z + 2 ^ 63) mod 2 ^ 64 - 2 ^ 63.

(** What the platform gives for [int(f)] when [f] does not fit: the Go
    specification leaves it to the implementation. *)
Class GoPlatform := { int_of_float64_overflow : Q -> Z }.

(** [int(f)] for a float64 [f]: the fraction is discarded (truncation
    towards zero). *)
Definition int_of_float64 {platform : GoPlatform} (f : Q) : Z :=
  let z := Z.quot (Qnum f) (Zpos (Qden f)) in
  if (min_int <=? z) && (z <=? max_int) then z else int_of_float64_overflow f.

(** ** Pagination metadata *)

(** Modelled from the spec: the struct [repositorysdk.PaginationMetadata]
    is declared in an imported package; the source reads and writes the
    fields [ItemsPerPage], [ItemCount], [TotalItem] and [TotalPage], and the
    spec adds the requested page. *)
Record PaginationMetadata := mkMeta {
  ItemsPerPage : Z;
  ItemCount : Z;
  TotalItem : Z;
  CurrentPage : Z;
  TotalPage : Z
}.

Definition set_TotalItem (v : Z) (m : PaginationMetadata) :=
  mkMeta (ItemsPerPage m) (ItemCount m) v (CurrentPage m) (TotalPage m).
Definition set_TotalPage (v : Z) (m : PaginationMetadata) :=
  mkMeta (ItemsPerPage m) (ItemCount m) (TotalItem m) (CurrentPage m) v.
Definition set_ItemCount (v : Z) (m : PaginationMetadata) :=
  mkMeta (ItemsPerPage m) v (TotalItem m) (CurrentPage m) (TotalPage m).

(** The accessors [meta.GetOffset()] and [meta.GetItemPerPage()] of the
    imported package. *)
Class PaginationAccessors := {
  GetOffset : PaginationMetadata -> Z;
  GetItemPerPage : PaginationMetadata -> Z
}.

(** ** Observable events and the store *)

Inductive level := InfoLevel | ErrorLevel.

(** zap fields; [zap_Error None] is the no-op field zap builds for a nil
    error. *)
Inductive field :=
| zap_Error (e : option error)
| zap_String (key val : string)
| zap_Int (key : string) (n : Z)
| zap_Uint64 (key : string) (n : Z).

Inductive event :=
| EvLog (lvl : level) (msg : string) (fields : list field)
| EvCancel
| EvSearchDo (index : list string) (body : bytes)
| EvIndexDo (index docID : string) (doc : value)
| EvUpdate (index docID : string) (doc : value)
| EvDeleteDo (index docID : string)
| EvBodyClose (body : bytes)
| EvBulkAdd (index docID : string) (body : bytes)
| EvBulkClose
| EvFatal (msg : string).

(** The memory the pointer arguments [req], [result] and [meta] designate,
    and the events emitted so far (oldest first).  [*req] is written by
    index, so its nil map ([None]) is kept apart from the empty map. *)
Record store := mkStore {
  st_req : option (gmap string value);
  st_result : gmap string value;
  st_meta : PaginationMetadata;
  st_trace : list event
}.

Definition set_req (r : option (gmap string value)) (s : store) :=
  mkStore r (st_result s) (st_meta s) (st_trace s).
Definition set_result (r : gmap string value) (s : store) :=
  mkStore (st_req s) r (st_meta s) (st_trace s).
Definition set_meta (m : PaginationMetadata) (s : store) :=
  mkStore (st_req s) (st_result s) m (st_trace s).
Definition emit (e : event) (s : store) :=
  mkStore (st_req s) (st_result s) (st_meta s) (st_trace s ++ [e]).

(** ** The monad: state, run-time panics and process exit *)

Inductive panic :=
| NilDereference
| AssignToNilMap
| InterfaceConversion
| IntegerDivideByZero.

Inductive outcome (A : Type) :=
| Ret (a : A)
| Panic (p : panic)
| Exit (code : Z).
Arguments Ret {A} a.
Arguments Panic {A} p.
Arguments Exit {A} code.

Definition M (A : Type) := store -> outcome A * store.

Definition ret {A} (a : A) : M A := fun s => (Ret a, s).
Definition throw {A} (p : panic) : M A := fun s => (Panic p, s).
Definition os_Exit {A} (code : Z) : M A := fun s => (Exit code, s).
Definition bind {A B} (m : M A) (k : A -> M B) : M B :=
  fun s => match m s with
           | (Ret a, s') => k a s'
           | (Panic p, s') => (Panic p, s')
           | (Exit c, s') => (Exit c, s')
           end.

Declare Scope go_scope.
Delimit Scope go_scope with go.
Notation "'let*' x := m 'in' k" := (bind m (fun x => k))
  (at level 10, x name, m at level 100, k at level 200, only parsing) : go_scope.
Open Scope go_scope.

Definition get : M store := fun s => (Ret s, s).
Definition modify (f : store -> store) : M unit := fun s => (Ret tt, f s).
Definition trace (e : event) : M unit := modify (emit e).

(** [defer d] in front of the rest [m] of a function body: [d] runs when
    [m] returns and when it panics, not when the process exits. *)
Definition defer {A} (d : event) (m : M A) : M A :=
  fun s => match m s with
           | (Ret a, s') => (Ret a, emit d s')
           | (Panic p, s') => (Panic p, emit d s')
           | (Exit c, s') => (Exit c, s')
           end.

(** [err.Error()]: a method call through a nil interface value panics. *)
Definition error_Error (err : option error) : M string :=
  match err with
  | Some e => ret e
  | None => throw NilDereference
  end.

(** [x.(map[string]interface{})], [x.(float64)], [x.([]interface{})] in
    their one-result form: a mismatch, a nil [x] included, panics.  A key
    that is absent from a Go map reads as nil. *)
Definition assert_map (x : option value) : M (gmap string value) :=
  match x with
  | Some (VMap m) => ret m
  | _ => throw InterfaceConversion
  end.
Definition assert_float64 (x : option value) : M Q :=
  match x with
  | Some (VFloat64 f) => ret f
  | _ => throw InterfaceConversion
  end.
Definition assert_slice (x : option value) : M (list value) :=
  match x with
  | Some (VSlice l) => ret l
  | _ => throw InterfaceConversion
  end.

(** Integer [/] and [%] on [int]: truncated division, a zero divisor
    panics. *)
Definition int_quo (a b : Z) : M Z :=
  if b =? 0 then throw IntegerDivideByZero else ret (wrap_int (Z.quot a b)).
Definition int_rem (a b : Z) : M Z :=
  if b =? 0 then throw IntegerDivideByZero else ret (Z.rem a b).

(** ** calMetadata *)

Section CalMetadata.
Context {platform : GoPlatform}.

Definition calMetadata : M unit :=
  let* s := get in
  let* hits := assert_map (st_result s !! "hits") in
  let* total := assert_map (hits !! "total") in
  let* value := assert_float64 (total !! "value") in
  let totalItemValue := int_of_float64 value in
  let* _ := modify (fun s => set_meta (set_TotalItem totalItemValue (st_meta s)) s) in
  let* s := get in
  let* q := int_quo totalItemValue (ItemsPerPage (st_meta s)) in
  let* _ := modify (fun s => set_meta (set_TotalPage q (st_meta s)) s) in
  let* items := assert_slice (hits !! "hits") in
  let* _ := modify (fun s => set_meta (set_ItemCount (Z.of_nat (length items)) (st_meta s)) s) in
  let* s := get in
  let* r := int_rem totalItemValue (ItemsPerPage (st_meta s)) in
  if r =? 0 then ret tt
  else modify (fun s => set_meta (set_TotalPage (wrap_int (TotalPage (st_meta s) + 1)) (st_meta s)) s).
End CalMetadata.

(** ** The collaborators of the repository *)

(** [*opensearchapi.Response], as far as the source looks at it. *)
Record Response := mkResponse { StatusCode : Z; Body : bytes }.

(** encoding/json.  [json_Decode body m] is [json.NewDecoder(body).Decode(&m)]
    for a map [m]: the error, if any, and the map left behind. *)
Class Json := {
  json_Marshal : value -> error + bytes;
  json_Decode : bytes -> gmap string value -> option error * gmap string value
}.

(** The engine client: the answer of each transport call is either the
    transport error or the response.  A deadline that expires is one of the
    transport errors. *)
Class Engine := {
  search_Do : list string -> bytes -> error + Response;
  index_Do : string -> string -> value -> error + Response;
  client_Update : string -> string -> value -> error + Response;
  delete_Do : string -> string -> error + Response
}.

(** The capability set of a document type. *)
Class OpenSearchDocumentAble (T : Type) := {
  ToDoc : T -> value;
  GetID : T -> string
}.

Definition logger_Error (msg : string) (fields : list field) : M unit :=
  trace (EvLog ErrorLevel msg fields).
Definition logger_Info (msg : string) (fields : list field) : M unit :=
  trace (EvLog InfoLevel msg fields).

(** [( *req)[key] = v]: an assignment to an entry of a nil map panics. *)
Definition req_assign (key : string) (v : value) : M unit :=
  let* s := get in
  match st_req s with
  | Some m => modify (set_req (Some (<[key := v]> m)))
  | None => throw AssignToNilMap
  end.

(** What [json.Marshal(req)] sees through the pointer [req]. *)
Definition req_value (r : option (gmap string value)) : value :=
  match r with
  | Some m => VMap m
  | None => VNil
  end.

(** ** Search and Suggest *)

Section Executor.
Context {platform : GoPlatform} {accessors : PaginationAccessors}
        {json : Json} {engine : Engine}.

Definition Search (indexName : string) : M (option error) :=
  defer EvCancel (
    let* s := get in
    let* _ := req_assign "from" (VInt (GetOffset (st_meta s))) in
    let* s := get in
    let* _ := req_assign "size" (VInt (GetItemPerPage (st_meta s))) in
    let* s := get in
    match json_Marshal (req_value (st_req s)) with
    | inl e =>
        let err := Some e in
        let* msg := error_Error err in
        let* _ := logger_Error msg [zap_Error err; zap_String "index_name" indexName] in
        ret err
    | inr reqJSON =>
        let* _ := trace (EvSearchDo [indexName] reqJSON) in
        match search_Do [indexName] reqJSON with
        | inl e =>
            let err := Some e in
            let* msg := error_Error err in
            let* _ := logger_Error msg [zap_Error err; zap_String "index_name" indexName] in
            ret err
        | inr res =>
            let err : option error := None in
            if 200 <? StatusCode res then
              let* msg := error_Error err in
              let* _ := logger_Error msg [zap_Error err; zap_String "index_name" indexName] in
              ret (Some "Invalid query"%string)
            else
              defer (EvBodyClose (Body res)) (
                let* s := get in
                let '(derr, result') := json_Decode (Body res) (st_result s) in
                let* _ := modify (set_result result') in
                match derr with
                | Some e => ret (Some e)
                | None => let* _ := calMetadata in ret None
                end)
        end
    end).

Definition Suggest (indexName : string) : M (option error) :=
  defer EvCancel (
    (* set maximum suggestion = 10 *)
    let* _ := req_assign "size" (VInt 10) in
    let* s := get in
    match json_Marshal (req_value (st_req s)) with
    | inl e =>
        let err := Some e in
        let* msg := error_Error err in
        let* _ := logger_Error msg [zap_Error err; zap_String "index_name" indexName] in
        ret err
    | inr reqJSON =>
        let* _ := trace (EvSearchDo [indexName] reqJSON) in
        match search_Do [indexName] reqJSON with
        | inl e =>
            let err := Some e in
            let* msg := error_Error err in
            let* _ := logger_Error msg [zap_Error err; zap_String "index_name" indexName] in
            ret err
        | inr res =>
            let err : option error := None in
            if 200 <? StatusCode res then
              let* msg := error_Error err in
              let* _ := logger_Error msg [zap_Error err; zap_String "index_name" indexName] in
              ret (Some "Invalid query"%string)
            else
              defer (EvBodyClose (Body res)) (
                let* s := get in
                let '(derr, result') := json_Decode (Body res) (st_result s) in
                let* _ := modify (set_result result') in
                match derr with
                | Some e =>
                    let* msg := error_Error (Some e) in
                    let* _ := logger_Error msg [zap_Error (Some e); zap_String "index_name" indexName] in
                    ret (Some e)
                | None => ret None
                end)
        end
    end).
End Executor.

(** ** Insert, Update and Delete *)

Definition StatusBadRequest : Z := 400.

Section SingleDocument.
Context {engine : Engine} {T : Type} {doc_able : OpenSearchDocumentAble T}.

Definition Insert (indexName docID : string) (doc : T) : M (option error) :=
  defer EvCancel (
    let* _ := trace (EvIndexDo indexName docID (ToDoc doc)) in
    match index_Do indexName docID (ToDoc doc) with
    | inl e =>
        let err := Some e in
        let* msg := error_Error err in
        let* _ := logger_Error msg [zap_Error err; zap_String "index_name" indexName;
                          zap_String "doc_id" docID] in
        ret err
    | inr res =>
        let err : option error := None in
        if StatusBadRequest <=? StatusCode res then
          let* msg := error_Error err in
          let* _ := logger_Error msg [zap_Error err; zap_String "index_name" indexName;
                            zap_String "doc_id" docID;
                            zap_Int "status_code" (StatusCode res)] in
          ret (Some "insert failed"%string)
        else
          let* _ := logger_Info "successfully insert document"
                      [zap_String "index_name" indexName; zap_String "doc_id" docID] in
          ret None
    end).

Definition Update (indexName docID : string) (doc : gmap string value) : M (option error) :=
  let body := VMap {[ "doc"%string := VMap doc ]} in
  let* _ := trace (EvUpdate indexName docID body) in
  match client_Update indexName docID body with
  | inl e =>
      let err := Some e in
      let* msg := error_Error err in
      let* _ := logger_Error msg [zap_Error err; zap_String "index_name" indexName;
                        zap_String "doc_id" docID] in
      ret err
  | inr res =>
      let err : option error := None in
      if StatusBadRequest <=? StatusCode res then
        let* msg := error_Error err in
        let* _ := logger_Error msg [zap_Error err; zap_String "index_name" indexName;
                          zap_String "doc_id" docID;
                          zap_Int "status_code" (StatusCode res)] in
        ret (Some "update failed"%string)
      else
        let* _ := logger_Info "successfully update document"
                    [zap_String "index_name" indexName; zap_String "doc_id" docID] in
        ret None
  end.

Definition Delete (indexName docID : string) : M (option error) :=
  defer EvCancel (
    let* _ := trace (EvDeleteDo indexName docID) in
    match delete_Do indexName docID with
    | inl e =>
        let err := Some e in
        let* msg := error_Error err in
        let* _ := logger_Error msg [zap_Error err; zap_String "index_name" indexName;
                          zap_String "doc_id" docID] in
        ret err
    | inr res =>
        let err : option error := None in
        if StatusBadRequest <=? StatusCode res then
          let* msg := error_Error err in
          let* _ := logger_Error msg [zap_Error err; zap_String "index_name" indexName;
                            zap_String "doc_id" docID;
                            zap_Int "status_code" (StatusCode res)] in
          ret (Some "delete failed"%string)
        else
          let* _ := logger_Info "successfully delete document"
                      [zap_Error err; zap_String "index_name" indexName;
                       zap_String "doc_id" docID] in
          ret None
    end).
End SingleDocument.

(** ** Bulk ingestion *)

Record BulkIndexerResponseItem := mkResponseItem {
  Error_Type : string;
  Error_Reason : string
}.

(** [opensearchutil.BulkIndexerItem]; the callbacks are the closures the
    source builds (their context and item arguments are never used). *)
Record BulkIndexerItem := mkItem {
  item_Index : string;
  item_Action : string;
  item_DocumentID : string;
  item_Body : bytes;
  item_OnSuccess : BulkIndexerResponseItem -> M unit;
  item_OnFailure : BulkIndexerResponseItem -> option error -> M unit
}.

Record BulkIndexerStats := mkStats { NumFlushed : Z; NumFailed : Z }.

(** What the engine-native bulk channel does with one submitted item. *)
Inductive item_fate :=
| AddRefused (e : error)
| ItemIndexed (res : BulkIndexerResponseItem)
| ItemFailed (res : BulkIndexerResponseItem) (err : option error)
| ItemLost.

(** The bulk indexer of the engine client: whether it can be created, the
    fate of the [n]-th submitted item, and the error of the final flush. *)
Class BulkEngine := {
  bulk_New : string -> option error;
  bulk_fate : nat -> string -> string -> bytes -> item_fate;
  bulk_Close : string -> option error
}.

(** The indexer value: the items accepted so far with their fates, the
    number of submissions, and the counters. *)
Record BulkIndexer := mkIndexer {
  bx_queue : list (item_fate * BulkIndexerItem);
  bx_added : nat;
  bx_stats : BulkIndexerStats
}.

(** The counters are uint64. *)
Definition count_flushed (st : BulkIndexerStats) :=
  mkStats ((NumFlushed st + 1) mod 2 ^ 64) (NumFailed st).
Definition count_failed (st : BulkIndexerStats) :=
  mkStats (NumFlushed st) ((NumFailed st + 1) mod 2 ^ 64).

Fixpoint flush_items (q : list (item_fate * BulkIndexerItem))
    (st : BulkIndexerStats) : M BulkIndexerStats :=
  match q with
  | [] => ret st
  | (fate, item) :: q' =>
      match fate with
      | ItemIndexed res =>
          let* _ := item_OnSuccess item res in
          flush_items q' (count_flushed st)
      | ItemFailed res err =>
          let* _ := item_OnFailure item res err in
          flush_items q' (count_failed st)
      | ItemLost => flush_items q' (count_failed st)
      | AddRefused _ => flush_items q' st
      end
  end.

Section Bulk.
Context {json : Json} {bulk : BulkEngine}
        {T : Type} {doc_able : OpenSearchDocumentAble T}.

(** Modelled from the spec: [indexer.Add] of the engine client's bulk
    channel accepts an item or fails synchronously. *)
Definition indexer_Add (indexer : BulkIndexer) (item : BulkIndexerItem)
    : M (option error * BulkIndexer) :=
  let* _ := trace (EvBulkAdd (item_Index item) (item_DocumentID item) (item_Body item)) in
  let fate := bulk_fate (bx_added indexer) (item_Index item)
                        (item_DocumentID item) (item_Body item) in
  match fate with
  | AddRefused e =>
      ret (Some e, mkIndexer (bx_queue indexer) (S (bx_added indexer)) (bx_stats indexer))
  | _ =>
      ret (None, mkIndexer (bx_queue indexer ++ [(fate, item)])
                           (S (bx_added indexer)) (bx_stats indexer))
  end.

(** Modelled from the spec: [indexer.Close] flushes the channel and
    waits for every callback; each callback feeds the counters.  The
    callbacks run on the channel's workers; here they run one after the
    other in submission order, and a panic in one of them ends the
    process as it does in a goroutine. *)
Definition indexer_Close (indexName : string) (indexer : BulkIndexer)
    : M (option error * BulkIndexer) :=
  let* st := flush_items (bx_queue indexer) (bx_stats indexer) in
  let* _ := trace EvBulkClose in
  ret (bulk_Close indexName, mkIndexer [] (bx_added indexer) st).

Definition insertBulk (indexer : BulkIndexer) (indexName : string) (content : T)
    : M BulkIndexer :=
  defer EvCancel (
    let '(docContent, err) :=
      match json_Marshal (ToDoc content) with
      | inl e => ([], Some e)
      | inr b => (b, None)
      end in
    let* _ :=
      match err with
      | Some _ =>
          let* msg := error_Error err in
          logger_Error msg [zap_Error err; zap_String "index_name" indexName;
                            zap_String "doc_id" (GetID content)]
      | None => ret tt
      end in
    let* added := indexer_Add indexer {|
      item_Index := indexName;
      item_Action := "index";
      item_DocumentID := GetID content;
      item_Body := docContent;
      item_OnSuccess := fun res =>
        logger_Info "successfully insert doc content"
                    [zap_Error err; zap_String "index_name" indexName;
                     zap_String "doc_id" (GetID content)];
      item_OnFailure := fun res err =>
        match err with
        | Some _ =>
            let* msg := error_Error err in
            logger_Error msg [zap_Error err; zap_String "index_name" indexName;
                              zap_String "doc_id" (GetID content)]
        | None =>
            let* msg := error_Error err in
            logger_Error msg [zap_Error err; zap_String "index_name" indexName;
                              zap_String "doc_id" (GetID content);
                              zap_String "error_type" (Error_Type res);
                              zap_String "error_reason" (Error_Reason res)]
        end
    |} in
    let* _ :=
      match added.1 with
      | Some e =>
          let* msg := error_Error (Some e) in
          logger_Error msg [zap_Error (Some e); zap_String "index_name" indexName;
                            zap_String "doc_id" (GetID content)]
      | None => ret tt
      end in
    ret added.2).

Fixpoint insertBulk_each (indexer : BulkIndexer) (indexName : string)
    (contentList : list T) : M BulkIndexer :=
  match contentList with
  | [] => ret indexer
  | content :: rest =>
      let* indexer' := insertBulk indexer indexName content in
      insertBulk_each indexer' indexName rest
  end.

Definition InsertBulk (indexName : string) (contentList : list T) : M (option error) :=
  (* Initialize indexer *)
  match bulk_New indexName with
  | Some err =>
      let* _ := trace (EvFatal ("Error creating the indexer: " +:+ err)) in
      os_Exit 1
  | None =>
      let indexer := mkIndexer [] 0 (mkStats 0 0) in
      let* indexer := insertBulk_each indexer indexName contentList in
      (* Close the indexer channel and flush remaining items *)
      let* closed := indexer_Close indexName indexer in
      let* _ :=
        match closed.1 with
        | Some e =>
            let* msg := error_Error (Some e) in
            logger_Error msg [zap_Error (Some e); zap_String "index_name" indexName]
        | None => ret tt
        end in
      (* Report the indexer statistics *)
      let stats := bx_stats closed.2 in
      let* _ :=
        if 0 <? NumFailed stats then
          logger_Error "inserting some document failed"
                       [zap_Error (Some "inserting some document failed"%string);
                        zap_String "index_name" indexName;
                        zap_Uint64 "num_flush" (NumFlushed stats);
                        zap_Uint64 "num_failed" (NumFailed stats)]
        else
          logger_Info "successfully insert bulk document"
                      [zap_String "index_name" indexName] in
      ret None
  end.
End Bulk.

(** ** CreateIndex *)

(** The index API of the engine client, and the two methods of the
    response CreateIndex calls. *)
Class IndicesClient := {
  indices_Create : string -> bytes -> error + Response;
  response_IsError : Response -> bool;
  response_String : Response -> string
}.

Section Indices.
Context {indices : IndicesClient}.

Definition CreateIndex (indexName : string) (indexBody : bytes) : M (option error) :=
  match indices_Create indexName indexBody with
  | inl err => ret (Some err)
  | inr res =>
      if response_IsError res then ret (Some (response_String res))
      else ret None
  end.
End Indices.

(** ** The facade as one operation set *)

Inductive operation (T : Type) :=
| OpSearch (indexName : string)
| OpSuggest (indexName : string)
| OpInsert (indexName docID : string) (doc : T)
| OpUpdate (indexName docID : string) (doc : gmap string value)
| OpDelete (indexName docID : string).
Arguments OpSearch {T} indexName.
Arguments OpSuggest {T} indexName.
Arguments OpInsert {T} indexName docID doc.
Arguments OpUpdate {T} indexName docID doc.
Arguments OpDelete {T} indexName docID.

(** What a trace shows: the query bodies submitted, the response bodies
    closed, the log entries. *)
Definition submitted (t : list event) : list (list string * bytes) :=
  omap (fun e => match e with EvSearchDo i b => Some (i, b) | _ => None end) t.
Definition closed_bodies (t : list event) : list bytes :=
  omap (fun e => match e with EvBodyClose b => Some b | _ => None end) t.
Definition logged (t : list event) : list (level * string * list field) :=
  omap (fun e => match e with EvLog l m f => Some (l, m, f) | _ => None end) t.

Section FacadeOperations.
Context {platform : GoPlatform} {accessors : PaginationAccessors}
        {json : Json} {engine : Engine}
        {T : Type} {doc_able : OpenSearchDocumentAble T}.

Definition run (op : operation T) : M (option error) :=
  match op with
  | OpSearch i => Search i
  | OpSuggest i => Suggest i
  | OpInsert i d doc => Insert i d doc
  | OpUpdate i d doc => Update i d doc
  | OpDelete i d => Delete i d
  end.

(** The request map as Search and Suggest leave it before marshalling. *)
Definition search_request (s : store) (m : gmap string value) : gmap string value :=
  <[ "size"%string := VInt (GetItemPerPage (st_meta s)) ]>
    (<[ "from"%string := VInt (GetOffset (st_meta s)) ]> m).
Definition suggest_request (m : gmap string value) : gmap string value :=
  <[ "size"%string := VInt 10 ]> m.

Definition query_answer (indexName : string) (m : gmap string value)
    : option (error + Response) :=
  match json_Marshal (VMap m) with
  | inr reqJSON => Some (search_Do [indexName] reqJSON)
  | inl _ => None
  end.

(** The answer of the transport call of an operation, when the operation
    gets as far as making it. *)
Definition engine_answer (op : operation T) (s : store) : option (error + Response) :=
  match op with
  | OpSearch i => m ← st_req s; query_answer i (search_request s m)
  | OpSuggest i => m ← st_req s; query_answer i (suggest_request m)
  | OpInsert i d doc => Some (index_Do i d (ToDoc doc))
  | OpUpdate i d doc => Some (client_Update i d (VMap {[ "doc"%string := VMap doc ]}))
  | OpDelete i d => Some (delete_Do i d)
  end.

(** The status codes an operation classifies as a failure. *)
Definition failure_status (op : operation T) (code : Z) : bool :=
  match op with
  | OpSearch _ | OpSuggest _ => 200 <? code
  | _ => 400 <=? code
  end.

(** The JSON form of the request map of a query operation, when the
    operation gets as far as marshalling it. *)
Definition request_json (op : operation T) (s : store) : option (error + bytes) :=
  match op with
  | OpSearch _ => m ← st_req s; Some (json_Marshal (VMap (search_request s m)))
  | OpSuggest _ => m ← st_req s; Some (json_Marshal (VMap (suggest_request m)))
  | _ => None
  end.

(** The context fields every error entry of an operation carries after
    the error itself. *)
Definition context_fields (op : operation T) : list field :=
  match op with
  | OpSearch i | OpSuggest i => [zap_String "index_name" i]
  | OpInsert i d _ | OpUpdate i d _ | OpDelete i d =>
      [zap_String "index_name" i; zap_String "doc_id" d]
  end.

(** The operations that run under [context.WithTimeout] with a deferred
    [cancel]. *)
Definition has_deadline (op : operation T) : bool :=
  match op with
  | OpUpdate _ _ _ => false
  | _ => true
  end.
End FacadeOperations.

(** ** The words of the specification *)

(** [ceil(totalItem / itemsPerPage)], the quotient taken in the rationals. *)
Definition spec_totalPage (totalItem itemsPerPage : Z) : Z :=
  Qceiling (inject_Z totalItem / inject_Z itemsPerPage)%Q.

(** The envelope carries [hits] as a mapping, [hits.total.value] as a
    number and [hits.hits] as a sequence. *)
Definition well_formed (env : gmap string value) : bool :=
  match env !! "hits" with
  | Some (VMap hits) =>
      match hits !! "total", hits !! "hits" with
      | Some (VMap total), Some (VSlice _) =>
          match total !! "value" with
          | Some (VFloat64 _) => true
          | _ => false
          end
      | _, _ => false
      end
  | _ => false
  end.

(** The entries of [hits.hits], when it is there. *)
Definition envelope_hits (env : gmap string value) : list value :=
  match env !! "hits" with
  | Some (VMap hits) =>
      match hits !! "hits" with
      | Some (VSlice items) => items
      | _ => []
      end
  | _ => []
  end.

(** The number at [hits.total.value], when it is there. *)
Definition envelope_total (env : gmap string value) : option Q :=
  match env !! "hits" with
  | Some (VMap hits) =>
      match hits !! "total" with
      | Some (VMap total) =>
          match total !! "value" with
          | Some (VFloat64 f) => Some f
          | _ => None
          end
      | _ => None
      end
  | _ => None
  end.

Section ComputedMetadata.
Context {platform : GoPlatform}.

(** The metadata [calMetadata] leaves behind when it completes. *)
Definition computed_meta (m : PaginationMetadata) (f : Q) (items : list value) :=
  let t := int_of_float64 f in
  let q := wrap_int (t `quot` ItemsPerPage m) in
  mkMeta (ItemsPerPage m) (Z.of_nat (length items)) t (CurrentPage m)
         (if t `rem` ItemsPerPage m =? 0 then q else wrap_int (q + 1)).
End ComputedMetadata.

(** The items a trace shows as handed to the bulk indexer. *)
Definition bulk_added (t : list event) : list (string * string * bytes) :=
  omap (fun e => match e with EvBulkAdd i d b => Some (i, d, b) | _ => None end) t.

Section BulkBodies.
Context {json : Json} {T : Type} {doc_able : OpenSearchDocumentAble T}.

(** The body insertBulk submits for a document: its JSON form, or no
    bytes at all when marshalling fails. *)
Definition body_of (content : T) : bytes :=
  match json_Marshal (ToDoc content) with
  | inr b => b
  | inl _ => []
  end.
End BulkBodies.

Section BulkCallbacks.
Context {bulk : BulkEngine}.

(** The callback the channel will call for a queued item returns. *)
Definition callback_returns (qi : item_fate * BulkIndexerItem) : Prop :=
  match qi.1 with
  | ItemIndexed res => forall s, exists s', item_OnSuccess qi.2 res s = (Ret tt, s')
  | ItemFailed res err => forall s, exists s', item_OnFailure qi.2 res err s = (Ret tt, s')
  | _ => True
  end.

(** The channel never reports a failed item with a nil error. *)
Definition failures_carry_error : Prop :=
  forall n i d b res, bulk_fate n i d b <> ItemFailed res None.
End BulkCallbacks.

(** ** Concrete collaborators, used to run the code on explicit inputs *)

Definition amd64 : GoPlatform := {| int_of_float64_overflow := fun _ => min_int |}.

(** An envelope [{"hits": {"total": {"value": total}, "hits": items}}]. *)
Definition envelope (total : Q) (items : list value) : gmap string value :=
  {[ "hits"%string :=
       VMap (<[ "total"%string := VMap {[ "value"%string := VFloat64 total ]} ]>
             {[ "hits"%string := VSlice items ]}) ]}.

Definition meta_per_page (itemsPerPage : Z) : PaginationMetadata :=
  mkMeta itemsPerPage 0 0 1 0.

Definition store_of (req : option (gmap string value)) (result : gmap string value)
    (meta : PaginationMetadata) : store :=
  mkStore req result meta [].

(** Accessors that report the [ItemsPerPage] field and the offset of the
    requested page. *)
Definition page_accessors : PaginationAccessors := {|
  GetOffset m := (CurrentPage m - 1) * ItemsPerPage m;
  GetItemPerPage m := ItemsPerPage m
|}.

(** An encoder that yields [body] for every value and a decoder that finds
    the object [env] in every response body. *)
Definition json_const (body : bytes) (env : gmap string value) : Json := {|
  json_Marshal _ := inr body;
  json_Decode _ m := (None, env ∪ m)
|}.

(** An engine that answers every request with the status code [code] and
    the response body [body]. *)
Definition engine_status (code : Z) (body : bytes) : Engine := {|
  search_Do _ _ := inr (mkResponse code body);
  index_Do _ _ _ := inr (mkResponse code body);
  client_Update _ _ _ := inr (mkResponse code body);
  delete_Do _ _ := inr (mkResponse code body)
|}.

(** A bulk channel that gives every item the same fate. *)
Definition bulk_const (fate : item_fate) : BulkEngine := {|
  bulk_New _ := None;
  bulk_fate _ _ _ _ := fate;
  bulk_Close _ := None
|}.

(** Documents that are their own identifier. *)
Definition text_document : OpenSearchDocumentAble string := {|
  ToDoc := VString;
  GetID := id
|}.

Definition some_body : bytes := [Byte.x7b; Byte.x7d].

Definition query_store (page itemsPerPage : Z) : store :=
  store_of (Some {[ "query"%string := VString "tea"; "size"%string := VInt 500 ]}) ∅
           (mkMeta itemsPerPage 0 0 page 0).

(** An envelope without [hits.total]. *)
Definition envelope_without_total : gmap string value :=
  {[ "hits"%string := VMap {[ "hits"%string := VSlice [] ]} ]}.

(** An engine that cannot be reached: every transport call fails with
    [e]. *)
Definition engine_down (e : error) : Engine := {|
  search_Do _ _ := inl e;
  index_Do _ _ _ := inl e;
  client_Update _ _ _ := inl e;
  delete_Do _ _ := inl e
|}.

(** An encoder that fails with [e] on every value. *)
Definition json_unmarshalable (e : error) : Json := {|
  json_Marshal _ := inl e;
  json_Decode _ m := (None, m)
|}.

(** A decoder that fails with [e] after leaving [env] in the target. *)
Definition json_undecodable (body : bytes) (e : error) (env : gmap string value) : Json := {|
  json_Marshal _ := inr body;
  json_Decode _ m := (Some e, env ∪ m)
|}.

(** An envelope with a total and without [hits.hits]. *)
Definition envelope_without_hits (total : Q) : gmap string value :=
  {[ "hits"%string := VMap {[ "total"%string := VMap {[ "value"%string := VFloat64 total ]} ]} ]}.

(** An index API that answers with the status code [code]; a response is
    an error from 300 on. *)
Definition indices_status (code : Z) : IndicesClient := {|
  indices_Create _ _ := inr (mkResponse code []);
  response_IsError res := 299 <? StatusCode res;
  response_String _ := "[error response]"%string
|}.

(** * Properties *)

(** ** Integer facts *)

Lemma wrap_int_id z : min_int <= z <= max_int -> wrap_int z = z.
Proof.
  unfold wrap_int, min_int, max_int. intros Hz.
  rewrite Z.mod_small by lia. lia.
Qed.

Lemma int_of_float64_integral {platform : GoPlatform} (f : Q) (t : Z) :
  (f == inject_Z t)%Q -> min_int <= t <= max_int -> int_of_float64 f = t.
Proof.
  intros Heq Ht. unfold int_of_float64.
  destruct f as [n d]. unfold Qeq in Heq. simpl in *.
  assert (Hn : n = t * Z.pos d) by lia.
  rewrite Hn, Z.quot_mul by lia.
  destruct (Z.leb_spec min_int t), (Z.leb_spec t max_int); simpl; lia.
Qed.

Lemma ceil_quot_rem (t p : Z) :
  0 <= t -> 0 < p ->
  spec_totalPage t p = t `quot` p + (if t `rem` p =? 0 then 0 else 1).
Proof.
  intros Ht Hp. unfold spec_totalPage.
  destruct p as [|p|p]; try lia.
  unfold Qceiling, Qfloor, Qdiv, Qmult, Qinv, Qopp, inject_Z. simpl.
  rewrite Z.quot_div_nonneg, Z.rem_mod_nonneg by lia.
  rewrite Z.mul_1_r.
  pose proof (Z.div_mod t (Z.pos p) ltac:(lia)) as Hdm.
  pose proof (Z.mod_pos_bound t (Z.pos p) ltac:(lia)) as Hb.
  destruct (Z.eqb_spec (t mod Z.pos p) 0) as [Hz|Hz].
  - assert (- t = (- (t / Z.pos p)) * Z.pos p) as -> by lia.
    rewrite Z.div_mul by lia. lia.
  - assert (- t = (- (t / Z.pos p) - 1) * Z.pos p + (Z.pos p - t mod Z.pos p)) as -> by lia.
    rewrite Z.div_add_l, (Z.div_small (Z.pos p - _)) by lia. lia.
Qed.

(** ** calMetadata on a well-formed envelope *)

Section CalMetadataFacts.
Context {platform : GoPlatform}.

Lemma calMetadata_run (s : store) (hits total : gmap string value) f items :
  st_result s !! "hits" = Some (VMap hits) ->
  hits !! "total" = Some (VMap total) ->
  total !! "value" = Some (VFloat64 f) ->
  hits !! "hits" = Some (VSlice items) ->
  ItemsPerPage (st_meta s) <> 0 ->
  calMetadata s = (Ret tt, set_meta (computed_meta (st_meta s) f items) s).
Proof.
  intros Hh Ht Hv Hi Hp.
  unfold calMetadata, bind, get. simpl. rewrite Hh. simpl.
  rewrite Ht. simpl. rewrite Hv. simpl.
  unfold int_quo, int_rem.
  destruct (Z.eqb_spec (ItemsPerPage (st_meta s)) 0) as [|_]; [contradiction|].
  simpl. rewrite Hi. simpl.
  destruct (Z.eqb_spec (ItemsPerPage (st_meta s)) 0) as [|_]; [contradiction|].
  simpl. unfold computed_meta.
  destruct (_ =? 0); reflexivity.
Qed.

Lemma well_formed_inv (env : gmap string value) :
  well_formed env = true ->
  exists hits total f,
    env !! "hits" = Some (VMap hits) /\
    hits !! "total" = Some (VMap total) /\
    total !! "value" = Some (VFloat64 f) /\
    hits !! "hits" = Some (VSlice (envelope_hits env)) /\
    envelope_total env = Some f.
Proof.
  unfold well_formed, envelope_hits, envelope_total.
  destruct (env !! "hits") as [[| | | | | |hits|]|]; try discriminate.
  destruct (hits !! "total") as [[| | | | | |total|]|] eqn:Ht; try discriminate.
  destruct (hits !! "hits") as [[| | | | |items| |]|] eqn:Hi; try discriminate.
  destruct (total !! "value") as [[| | |f| | | |]|] eqn:Hv; try discriminate.
  intros _. exists hits, total, f. repeat split; assumption.
Qed.
End CalMetadataFacts.

Section CalMetadataClaims.
Context {platform : GoPlatform}.

(** C1.  With [itemsPerPage > 0] and an envelope whose [hits.total.value]
    is the non-negative integer [totalItem], the metadata computation
    completes and sets [TotalPage] to [ceil(totalItem / itemsPerPage)],
    which is the integer quotient plus one exactly when the remainder is
    not zero; [TotalItem] is [totalItem]. *)
Theorem calMetadata_totalPage_ceil (s : store) (f : Q) (totalItem : Z) :
  well_formed (st_result s) = true ->
  envelope_total (st_result s) = Some f ->
  (f == inject_Z totalItem)%Q ->
  0 <= totalItem <= max_int ->
  0 < ItemsPerPage (st_meta s) ->
  exists s',
    calMetadata s = (Ret tt, s') /\
    ItemsPerPage (st_meta s') = ItemsPerPage (st_meta s) /\
    TotalItem (st_meta s') = totalItem /\
    TotalPage (st_meta s') = spec_totalPage totalItem (ItemsPerPage (st_meta s)) /\
    TotalPage (st_meta s') =
      totalItem / ItemsPerPage (st_meta s)
      + (if totalItem mod ItemsPerPage (st_meta s) =? 0 then 0 else 1).
Proof.
  intros Hwf Htot Hf Ht Hp.
  destruct (well_formed_inv _ Hwf) as (hits & total & f' & Hh & Hto & Hv & Hi & Htot').
  assert (f' = f) as -> by congruence.
  eexists. split; [apply (calMetadata_run s hits total f _ Hh Hto Hv Hi); lia|].
  set (p := ItemsPerPage (st_meta s)) in *.
  assert (Hconv : int_of_float64 f = totalItem).
  { apply int_of_float64_integral; [assumption | unfold min_int, max_int in *; lia]. }
  assert (Hq : 0 <= totalItem `quot` p <= totalItem).
  { rewrite Z.quot_div_nonneg by lia. split; [apply Z.div_pos; lia|].
    apply Z.div_le_upper_bound; nia. }
  assert (Hpage : TotalPage (computed_meta (st_meta s) f (envelope_hits (st_result s)))
                  = totalItem `quot` p + (if totalItem `rem` p =? 0 then 0 else 1)).
  { unfold computed_meta. simpl. fold p. rewrite Hconv.
    rewrite (wrap_int_id (totalItem `quot` p)) by (unfold min_int, max_int in *; lia).
    destruct (Z.eqb_spec (totalItem `rem` p) 0) as [Hr|Hr]; [lia|].
    apply wrap_int_id.
    assert (totalItem `quot` p < totalItem); [|unfold min_int, max_int in *; lia].
    pose proof (Z.quot_rem' totalItem p) as Hqr.
    pose proof (Z.rem_bound_pos totalItem p ltac:(lia) ltac:(lia)) as Hb.
    destruct (Z.eq_dec p 1) as [->|]; [rewrite Z.rem_1_r in Hr; lia | nia]. }
  unfold set_meta. cbn [st_meta]. repeat split.
  - exact Hconv.
  - rewrite Hpage. symmetry. apply ceil_quot_rem; lia.
  - rewrite Hpage, Z.quot_div_nonneg, Z.rem_mod_nonneg by lia. reflexivity.
Qed.

(** C4.  On a well-formed envelope the metadata computation completes and
    [ItemCount] is the number of entries of [hits.hits], whatever
    [ItemsPerPage] (not zero) and [hits.total.value] are; the envelope is
    left as it was. *)
Theorem calMetadata_itemCount (s : store) :
  well_formed (st_result s) = true ->
  ItemsPerPage (st_meta s) <> 0 ->
  exists s',
    calMetadata s = (Ret tt, s') /\
    ItemCount (st_meta s') = Z.of_nat (length (envelope_hits (st_result s))) /\
    st_result s' = st_result s.
Proof.
  intros Hwf Hp.
  destruct (well_formed_inv _ Hwf) as (hits & total & f & Hh & Hto & Hv & Hi & _).
  eexists. split; [apply (calMetadata_run s hits total f _ Hh Hto Hv Hi Hp)|].
  split; reflexivity.
Qed.

(** A malformed envelope makes the computation panic: every lookup is
    followed by an unchecked type assertion, and the division by a zero
    [ItemsPerPage] panics as well. *)
Lemma calMetadata_malformed (s : store) :
  well_formed (st_result s) = false ->
  exists p s', calMetadata s = (Panic p, s') /\ st_result s' = st_result s.
Proof.
  unfold well_formed, calMetadata, bind, get. simpl.
  destruct (st_result s !! "hits") as [[| | | | | |hits|]|]; simpl;
    try (intros _; do 2 eexists; split; reflexivity).
  destruct (hits !! "total") as [[| | | | | |total|]|]; simpl;
    try (intros _; do 2 eexists; split; reflexivity).
  destruct (total !! "value") as [[| | |f| | | |]|]; simpl;
    try (destruct (hits !! "hits") as [[]|]; intros _; do 2 eexists; split; reflexivity).
  unfold int_quo, int_rem.
  destruct (ItemsPerPage (st_meta s) =? 0); simpl;
    [destruct (hits !! "hits") as [[]|]; intros _; do 2 eexists; split; reflexivity|].
  destruct (hits !! "hits") as [[| | | | |items| |]|]; simpl;
    try discriminate; intros _; do 2 eexists; split; reflexivity.
Qed.
End CalMetadataClaims.

Lemma calMetadata_totalPage_ceil_witness :
  exists s',
    calMetadata (platform := amd64)
      (store_of None (envelope (25 # 1) [VNil; VNil; VNil]) (meta_per_page 10))
    = (Ret tt, s') /\ TotalPage (st_meta s') = 3.
Proof.
  destruct (calMetadata_totalPage_ceil (platform := amd64)
              (store_of None (envelope (25 # 1) [VNil; VNil; VNil]) (meta_per_page 10))
              (25 # 1) 25)
    as (s' & Hrun & _ & _ & _ & Hpage).
  - vm_compute. reflexivity.
  - vm_compute. reflexivity.
  - reflexivity.
  - unfold max_int. lia.
  - simpl. lia.
  - exists s'. split; [exact Hrun | rewrite Hpage; reflexivity].
Defined.

Example totalPage_20_10 :
  TotalPage (st_meta (calMetadata (platform := amd64)
    (store_of None (envelope (20 # 1) []) (meta_per_page 10))).2) = 2.
Proof. vm_compute. reflexivity. Qed.

Example totalPage_0_10 :
  TotalPage (st_meta (calMetadata (platform := amd64)
    (store_of None (envelope (0 # 1) []) (meta_per_page 10))).2) = 0.
Proof. vm_compute. reflexivity. Qed.

Lemma calMetadata_itemCount_witness :
  exists s',
    calMetadata (platform := amd64)
      (store_of None (envelope (25 # 1) [VNil; VNil; VNil; VNil; VNil]) (meta_per_page 10))
    = (Ret tt, s') /\ ItemCount (st_meta s') = 5.
Proof.
  destruct (calMetadata_itemCount (platform := amd64)
              (store_of None (envelope (25 # 1) [VNil; VNil; VNil; VNil; VNil])
                        (meta_per_page 10)))
    as (s' & Hrun & Hcount & _).
  - vm_compute. reflexivity.
  - simpl. lia.
  - exists s'. split; [exact Hrun | rewrite Hcount; vm_compute; reflexivity].
Defined.

Section Facade.
Context {platform : GoPlatform} {accessors : PaginationAccessors}
        {json : Json} {engine : Engine}
        {T : Type} {doc_able : OpenSearchDocumentAble T}.

Ltac go_run :=
  cbv beta iota zeta delta
    [run Search Suggest Insert Update Delete defer bind req_assign get modify
     trace logger_Error logger_Info error_Error throw ret os_Exit StatusBadRequest
     set_req set_result set_meta emit req_value search_request suggest_request
     query_answer];
  cbn [st_req st_result st_meta st_trace fst snd].

Ltac trace_run :=
  unfold logged, submitted, closed_bodies;
  cbn [st_req st_result st_meta st_trace fst snd];
  rewrite ?omap_app; cbn [omap list_omap]; rewrite ?app_nil_r.

(** calMetadata touches the metadata only. *)
Lemma calMetadata_frame (s : store) :
  st_req (calMetadata s).2 = st_req s /\
  st_result (calMetadata s).2 = st_result s /\
  st_trace (calMetadata s).2 = st_trace s /\
  forall c, (calMetadata s).1 <> Exit c.
Proof.
  unfold calMetadata, assert_map, assert_float64, assert_slice, int_quo, int_rem.
  go_run.
  repeat match goal with
         | |- context [@lookup _ _ _ _ ?k ?m] => destruct (m !! k) as [[]|]; go_run
         | |- context [?a =? ?b] => destruct (a =? b); go_run
         end; repeat split; discriminate.
Qed.

(** C10.  When the transport call of Search, Suggest, Insert, Update or
    Delete succeeds and the status code is in the failure range of the
    operation, the call panics on [err.Error()] with a nil [err]: nothing
    is logged and no error value is returned. *)
Theorem error_status_branch_panics (op : operation T) (s : store) (res : Response) :
  engine_answer op s = Some (inr res) ->
  failure_status op (StatusCode res) = true ->
  exists s',
    run op s = (Panic NilDereference, s') /\
    logged (st_trace s') = logged (st_trace s).
Proof.
  destruct op as [i|i|i d doc|i d doc|i d]; simpl; intros Hans Hst.
  - destruct (st_req s) as [m|] eqn:Hreq; [|discriminate]. simpl in Hans.
    unfold query_answer, search_request in Hans.
    go_run. rewrite Hreq. go_run.
    destruct (json_Marshal _) as [e|reqJSON]; [discriminate|].
    injection Hans as Hans. go_run. rewrite Hans. go_run. rewrite Hst. go_run.
    eexists. split; [reflexivity|]. trace_run. reflexivity.
  - destruct (st_req s) as [m|] eqn:Hreq; [|discriminate]. simpl in Hans.
    unfold query_answer, suggest_request in Hans.
    go_run. rewrite Hreq. go_run.
    destruct (json_Marshal _) as [e|reqJSON]; [discriminate|].
    injection Hans as Hans. go_run. rewrite Hans. go_run. rewrite Hst. go_run.
    eexists. split; [reflexivity|]. trace_run. reflexivity.
  - injection Hans as Hans. go_run. rewrite Hans. go_run. rewrite Hst. go_run.
    eexists. split; [reflexivity|]. trace_run. reflexivity.
  - injection Hans as Hans. go_run. rewrite Hans. go_run. rewrite Hst. go_run.
    eexists. split; [reflexivity|]. trace_run. reflexivity.
  - injection Hans as Hans. go_run. rewrite Hans. go_run. rewrite Hst. go_run.
    eexists. split; [reflexivity|]. trace_run. reflexivity.
Qed.

(** X16.  A single-document operation whose status code is below 400,
    a 3xx code included, returns nil, logs its success once with the index
    name and the document identifier, and writes through none of the
    pointers. *)
Lemma single_document_success (op : operation T) (s : store) (res : Response) :
  engine_answer op s = Some (inr res) ->
  StatusCode res < 400 ->
  match op with
  | OpInsert i d _ =>
      exists evs, run op s = (Ret None, mkStore (st_req s) (st_result s) (st_meta s)
                                                (st_trace s ++ evs)) /\
        logged evs = [(InfoLevel, "successfully insert document"%string,
                       [zap_String "index_name" i; zap_String "doc_id" d])]
  | OpUpdate i d _ =>
      exists evs, run op s = (Ret None, mkStore (st_req s) (st_result s) (st_meta s)
                                                (st_trace s ++ evs)) /\
        logged evs = [(InfoLevel, "successfully update document"%string,
                       [zap_String "index_name" i; zap_String "doc_id" d])]
  | OpDelete i d =>
      exists evs, run op s = (Ret None, mkStore (st_req s) (st_result s) (st_meta s)
                                                (st_trace s ++ evs)) /\
        logged evs = [(InfoLevel, "successfully delete document"%string,
                       [zap_Error None; zap_String "index_name" i; zap_String "doc_id" d])]
  | _ => True
  end.
Proof.
  intros Hans Hst.
  assert (Hlt : (400 <=? StatusCode res) = false) by (apply Z.leb_gt; lia).
  destruct op as [i|i|i d doc|i d doc|i d]; simpl in *; try exact I;
    injection Hans as Hans; go_run; rewrite Hans; go_run; rewrite Hlt; go_run;
    rewrite <- ?app_assoc; eexists; (split; [reflexivity|]); reflexivity.
Qed.

Ltac close_trace :=
  cbn [st_req st_result st_meta st_trace fst snd] in *;
  eexists; split; [reflexivity|];
  split; [rewrite <- ?app_assoc; reflexivity|];
  split; [reflexivity|].

(** The request map and the submissions of a Search call: the map is
    updated in place, and what reaches the engine is its marshalled
    form. *)
Lemma Search_request (i : string) (s : store) (m : gmap string value) :
  st_req s = Some m ->
  exists evs,
    st_req (Search i s).2 = Some (search_request s m) /\
    st_trace (Search i s).2 = st_trace s ++ evs /\
    submitted evs =
      match json_Marshal (VMap (search_request s m)) with
      | inr reqJSON => [([i], reqJSON)]
      | inl _ => []
      end /\
    closed_bodies evs =
      match query_answer i (search_request s m) with
      | Some (inr res) => if 200 <? StatusCode res then [] else [Body res]
      | _ => []
      end.
Proof.
  intros Hreq. go_run. rewrite Hreq. go_run.
  destruct (json_Marshal _) as [e|reqJSON]; go_run; [close_trace; reflexivity|].
  destruct (search_Do _ _) as [e|res]; go_run; [close_trace; reflexivity|].
  destruct (200 <? StatusCode res); go_run; [close_trace; reflexivity|].
  destruct (json_Decode _ _) as [[e|] result']; go_run; [close_trace; reflexivity|].
  match goal with |- context [calMetadata ?s1] =>
    pose proof (calMetadata_frame s1) as (Hr & _ & Ht & Hx);
    destruct (calMetadata s1) as [[[]|p|c] s2]
  end; go_run; cbn [st_req st_trace fst snd] in Hr, Ht, Hx;
    [| |destruct (Hx c); reflexivity];
    eexists; rewrite Hr, Ht; (split; [reflexivity|]);
    (split; [rewrite <- ?app_assoc; reflexivity|]); split; reflexivity.
Qed.

(** C8.  Search submits the caller's request map with [from] set to the
    offset and [size] set to the items per page the metadata reports, and
    every other key as the caller gave it; the caller's map is updated in
    place. *)
Theorem Search_injects_from_size (i : string) (s : store) (m : gmap string value) :
  st_req s = Some m ->
  exists evs,
    st_req (Search i s).2 = Some (search_request s m) /\
    st_trace (Search i s).2 = st_trace s ++ evs /\
    submitted evs =
      match json_Marshal (VMap (search_request s m)) with
      | inr reqJSON => [([i], reqJSON)]
      | inl _ => []
      end /\
    search_request s m !! "from" = Some (VInt (GetOffset (st_meta s))) /\
    search_request s m !! "size" = Some (VInt (GetItemPerPage (st_meta s))) /\
    forall k : string, k <> "from"%string -> k <> "size"%string ->
                       search_request s m !! k = m !! k.
Proof.
  intros Hreq.
  destruct (Search_request i s m Hreq) as (evs & Hr & Ht & Hs & _).
  exists evs.
  repeat split; try assumption; unfold search_request.
  - rewrite lookup_insert_ne by discriminate. apply lookup_insert_eq.
  - apply lookup_insert_eq.
  - intros k Hf Hz. rewrite !lookup_insert_ne by congruence. reflexivity.
Qed.

Lemma Suggest_request (i : string) (s : store) (m : gmap string value) :
  st_req s = Some m ->
  exists evs,
    st_req (Suggest i s).2 = Some (suggest_request m) /\
    st_trace (Suggest i s).2 = st_trace s ++ evs /\
    submitted evs =
      match json_Marshal (VMap (suggest_request m)) with
      | inr reqJSON => [([i], reqJSON)]
      | inl _ => []
      end /\
    closed_bodies evs =
      match query_answer i (suggest_request m) with
      | Some (inr res) => if 200 <? StatusCode res then [] else [Body res]
      | _ => []
      end.
Proof.
  intros Hreq. go_run. rewrite Hreq. go_run.
  destruct (json_Marshal _) as [e|reqJSON]; go_run; [close_trace; reflexivity|].
  destruct (search_Do _ _) as [e|res]; go_run; [close_trace; reflexivity|].
  destruct (200 <? StatusCode res); go_run; [close_trace; reflexivity|].
  destruct (json_Decode _ _) as [[e|] result']; go_run; close_trace; reflexivity.
Qed.

(** C7.  Suggest sets [size] to 10 in the caller's request map, whatever
    the caller put there, and what it submits to the engine is that map
    marshalled; every other key is as the caller gave it. *)
Theorem Suggest_forces_size_10 (i : string) (s : store) (m : gmap string value) :
  st_req s = Some m ->
  exists evs,
    st_req (Suggest i s).2 = Some (suggest_request m) /\
    st_trace (Suggest i s).2 = st_trace s ++ evs /\
    submitted evs =
      match json_Marshal (VMap (suggest_request m)) with
      | inr reqJSON => [([i], reqJSON)]
      | inl _ => []
      end /\
    suggest_request m !! "size" = Some (VInt 10) /\
    forall k : string, k <> "size"%string -> suggest_request m !! k = m !! k.
Proof.
  intros Hreq.
  destruct (Suggest_request i s m Hreq) as (evs & Hr & Ht & Hs & _).
  exists evs.
  repeat split; try assumption; unfold suggest_request.
  - apply lookup_insert_eq.
  - intros k Hk. rewrite lookup_insert_ne by congruence. reflexivity.
Qed.

(** X15.  With a nil request map neither Search nor Suggest reaches the
    engine: the assignment to an entry of the nil map panics, and the
    deferred cancel still runs. *)
Lemma nil_request_map_panics (i : string) (s : store) :
  st_req s = None ->
  Search i s = (Panic AssignToNilMap, emit EvCancel s) /\
  Suggest i s = (Panic AssignToNilMap, emit EvCancel s).
Proof.
  intros Hreq. go_run. rewrite Hreq. go_run. rewrite <- Hreq. split; reflexivity.
Qed.

(** C3, as the code has it.  When the engine answers a Search with a
    status code that is not above 200 and the decoded envelope lacks
    [hits], [hits.total], [hits.total.value] or [hits.hits], or has one of
    them with the wrong shape, the metadata computation panics: Search
    returns neither an error nor nil, the envelope stays in [*result] and
    the response body is closed. *)
Theorem Search_malformed_envelope_panics (i : string) (s : store)
    (m env : gmap string value) (res : Response) :
  st_req s = Some m ->
  query_answer i (search_request s m) = Some (inr res) ->
  StatusCode res <= 200 ->
  json_Decode (Body res) (st_result s) = (None, env) ->
  well_formed env = false ->
  exists p s',
    Search i s = (Panic p, s') /\
    st_result s' = env /\
    closed_bodies (st_trace s') = closed_bodies (st_trace s) ++ [Body res].
Proof.
  intros Hreq Hans Hst Hdec Hwf.
  assert (Hle : (200 <? StatusCode res) = false) by (apply Z.ltb_ge; lia).
  unfold query_answer, search_request in Hans.
  go_run. rewrite Hreq. go_run.
  destruct (json_Marshal _) as [e|reqJSON]; [discriminate|].
  injection Hans as Hans. go_run. rewrite Hans. go_run. rewrite Hle. go_run.
  rewrite Hdec. go_run.
  match goal with |- context [calMetadata ?s1] =>
    destruct (calMetadata_malformed s1 Hwf) as (p & s2 & Hrun & Hres);
    pose proof (calMetadata_frame s1) as (_ & _ & Ht & _)
  end.
  rewrite Hrun in Ht |- *. go_run. cbn [st_result st_trace snd] in Hres, Ht.
  exists p. eexists. split; [reflexivity|]. split; [exact Hres|].
  trace_run. rewrite Ht. trace_run. reflexivity.
Qed.

(** The response body is closed once on the paths behind the status
    check, and not at all when the status code is above 200. *)
Lemma body_closed_iff_status_ok (i : string) (s : store) (m : gmap string value)
    (res : Response) :
  st_req s = Some m ->
  (query_answer i (search_request s m) = Some (inr res) ->
   exists evs, st_trace (Search i s).2 = st_trace s ++ evs /\
     closed_bodies evs = if 200 <? StatusCode res then [] else [Body res]) /\
  (query_answer i (suggest_request m) = Some (inr res) ->
   exists evs, st_trace (Suggest i s).2 = st_trace s ++ evs /\
     closed_bodies evs = if 200 <? StatusCode res then [] else [Body res]).
Proof.
  intros Hreq. split; intros Hans.
  - destruct (Search_request i s m Hreq) as (evs & _ & Ht & _ & Hc).
    rewrite Hans in Hc. eauto.
  - destruct (Suggest_request i s m Hreq) as (evs & _ & Ht & _ & Hc).
    rewrite Hans in Hc. eauto.
Qed.

(** ** Further behaviour of the facade *)

(** X1.  A transport error is returned to the caller as it is, after one
    error entry that carries it; nothing is decoded, the metadata are not
    touched and no response body is closed. *)
Theorem transport_error_returned (op : operation T) (s : store) (e : error) :
  engine_answer op s = Some (inl e) ->
  exists evs,
    (run op s).1 = Ret (Some e) /\
    st_trace (run op s).2 = st_trace s ++ evs /\
    logged evs = [(ErrorLevel, e, zap_Error (Some e) :: context_fields op)] /\
    closed_bodies evs = [] /\
    st_result (run op s).2 = st_result s /\
    st_meta (run op s).2 = st_meta s.
Proof.
  destruct op as [i|i|i d doc|i d doc|i d]; simpl; intros Hans.
  - destruct (st_req s) as [m|] eqn:Hreq; [|discriminate]. simpl in Hans.
    unfold query_answer, search_request in Hans.
    go_run. rewrite Hreq. go_run.
    destruct (json_Marshal _) as [e'|reqJSON]; [discriminate|].
    injection Hans as Hans. go_run. rewrite Hans. go_run.
    eexists. split; [reflexivity|]. split; [rewrite <- ?app_assoc; reflexivity|].
    repeat split.
  - destruct (st_req s) as [m|] eqn:Hreq; [|discriminate]. simpl in Hans.
    unfold query_answer, suggest_request in Hans.
    go_run. rewrite Hreq. go_run.
    destruct (json_Marshal _) as [e'|reqJSON]; [discriminate|].
    injection Hans as Hans. go_run. rewrite Hans. go_run.
    eexists. split; [reflexivity|]. split; [rewrite <- ?app_assoc; reflexivity|].
    repeat split.
  - injection Hans as Hans. go_run. rewrite Hans. go_run.
    eexists. split; [reflexivity|]. split; [rewrite <- ?app_assoc; reflexivity|].
    repeat split.
  - injection Hans as Hans. go_run. rewrite Hans. go_run.
    eexists. split; [reflexivity|]. split; [rewrite <- ?app_assoc; reflexivity|].
    repeat split.
  - injection Hans as Hans. go_run. rewrite Hans. go_run.
    eexists. split; [reflexivity|]. split; [rewrite <- ?app_assoc; reflexivity|].
    repeat split.
Qed.

(** X2.  When the request map cannot be marshalled, Search and Suggest
    return the marshalling error after one error entry, and nothing is
    submitted to the engine. *)
Theorem marshal_error_returned (op : operation T) (s : store) (e : error) :
  request_json op s = Some (inl e) ->
  exists evs,
    (run op s).1 = Ret (Some e) /\
    st_trace (run op s).2 = st_trace s ++ evs /\
    submitted evs = [] /\
    logged evs = [(ErrorLevel, e, zap_Error (Some e) :: context_fields op)] /\
    st_result (run op s).2 = st_result s /\
    st_meta (run op s).2 = st_meta s.
Proof.
  destruct op as [i|i|i d doc|i d doc|i d]; simpl; intros Hjs; try discriminate.
  - destruct (st_req s) as [m|] eqn:Hreq; [|discriminate]. simpl in Hjs.
    unfold search_request in Hjs. injection Hjs as Hjs.
    go_run. rewrite Hreq. go_run. rewrite Hjs. go_run.
    eexists. split; [reflexivity|]. split; [rewrite <- ?app_assoc; reflexivity|].
    repeat split.
  - destruct (st_req s) as [m|] eqn:Hreq; [|discriminate]. simpl in Hjs.
    unfold suggest_request in Hjs. injection Hjs as Hjs.
    go_run. rewrite Hreq. go_run. rewrite Hjs. go_run.
    eexists. split; [reflexivity|]. split; [rewrite <- ?app_assoc; reflexivity|].
    repeat split.
Qed.

(** X3.  The success path of Search: with a status code not above 200, a
    body that decodes into a well-formed envelope and [ItemsPerPage] not
    zero, Search returns nil; the envelope is in [*result], the metadata
    are the computed ones, nothing is logged, and the body is closed
    before the context is cancelled. *)
Theorem Search_success (i : string) (s : store) (m env : gmap string value)
    (res : Response) :
  st_req s = Some m ->
  query_answer i (search_request s m) = Some (inr res) ->
  StatusCode res <= 200 ->
  json_Decode (Body res) (st_result s) = (None, env) ->
  well_formed env = true ->
  ItemsPerPage (st_meta s) <> 0 ->
  exists f reqJSON,
    envelope_total env = Some f /\
    json_Marshal (VMap (search_request s m)) = inr reqJSON /\
    Search i s =
      (Ret None,
       mkStore (Some (search_request s m)) env
               (computed_meta (st_meta s) f (envelope_hits env))
               (st_trace s ++ [EvSearchDo [i] reqJSON; EvBodyClose (Body res); EvCancel])).
Proof.
  intros Hreq Hans Hst Hdec Hwf Hp.
  assert (Hle : (200 <? StatusCode res) = false) by (apply Z.ltb_ge; lia).
  destruct (well_formed_inv _ Hwf) as (hits & total & f & Hh & Hto & Hv & Hi & Htot).
  unfold query_answer in Hans.
  destruct (json_Marshal (VMap (search_request s m))) as [e|reqJSON] eqn:Hjs;
    [discriminate|].
  injection Hans as Hans. exists f, reqJSON.
  split; [exact Htot|]. split; [reflexivity|].
  unfold search_request in Hjs.
  go_run. rewrite Hreq. go_run. rewrite Hjs. go_run. rewrite Hans. go_run.
  rewrite Hle. go_run. rewrite Hdec. go_run.
  match goal with |- context [calMetadata ?s1] =>
    rewrite (calMetadata_run s1 hits total f _ Hh Hto Hv Hi Hp)
  end.
  go_run. rewrite <- !app_assoc. reflexivity.
Qed.

(** X4.  When the body of a Search response does not decode, Search
    returns the decoding error without logging it; whatever the decoder
    left in [*result] stays there, the metadata are not touched, and the
    body is closed. *)
Theorem Search_decode_error (i : string) (s : store) (m env : gmap string value)
    (res : Response) (e : error) :
  st_req s = Some m ->
  query_answer i (search_request s m) = Some (inr res) ->
  StatusCode res <= 200 ->
  json_Decode (Body res) (st_result s) = (Some e, env) ->
  exists reqJSON,
    json_Marshal (VMap (search_request s m)) = inr reqJSON /\
    Search i s =
      (Ret (Some e),
       mkStore (Some (search_request s m)) env (st_meta s)
               (st_trace s ++ [EvSearchDo [i] reqJSON; EvBodyClose (Body res); EvCancel])).
Proof.
  intros Hreq Hans Hst Hdec.
  assert (Hle : (200 <? StatusCode res) = false) by (apply Z.ltb_ge; lia).
  unfold query_answer in Hans.
  destruct (json_Marshal (VMap (search_request s m))) as [e'|reqJSON] eqn:Hjs;
    [discriminate|].
  injection Hans as Hans. exists reqJSON. split; [reflexivity|].
  unfold search_request in Hjs.
  go_run. rewrite Hreq. go_run. rewrite Hjs. go_run. rewrite Hans. go_run.
  rewrite Hle. go_run. rewrite Hdec. go_run.
  rewrite <- !app_assoc. reflexivity.
Qed.

(** X5.  Behind the status check Suggest returns exactly what decoding
    the body gives, nil or the error; the error is logged once, the
    decoded map is in [*result], no pagination metadata are computed, and
    the body is closed before the context is cancelled. *)
Theorem Suggest_returns_decode_result (i : string) (s : store)
    (m env : gmap string value) (res : Response) (derr : option error) :
  st_req s = Some m ->
  query_answer i (suggest_request m) = Some (inr res) ->
  StatusCode res <= 200 ->
  json_Decode (Body res) (st_result s) = (derr, env) ->
  exists reqJSON,
    json_Marshal (VMap (suggest_request m)) = inr reqJSON /\
    Suggest i s =
      (Ret derr,
       mkStore (Some (suggest_request m)) env (st_meta s)
               (st_trace s ++ EvSearchDo [i] reqJSON ::
                  match derr with
                  | Some e => [EvLog ErrorLevel e [zap_Error (Some e);
                                                   zap_String "index_name" i]]
                  | None => []
                  end ++ [EvBodyClose (Body res); EvCancel])).
Proof.
  intros Hreq Hans Hst Hdec.
  assert (Hle : (200 <? StatusCode res) = false) by (apply Z.ltb_ge; lia).
  unfold query_answer in Hans.
  destruct (json_Marshal (VMap (suggest_request m))) as [e'|reqJSON] eqn:Hjs;
    [discriminate|].
  injection Hans as Hans. exists reqJSON. split; [reflexivity|].
  unfold suggest_request in Hjs.
  go_run. rewrite Hreq. go_run. rewrite Hjs. go_run. rewrite Hans. go_run.
  rewrite Hle. go_run. rewrite Hdec.
  destruct derr as [e|]; go_run; rewrite <- !app_assoc; reflexivity.
Qed.

(** X6.  Search, Suggest, Insert and Delete cancel their timeout context
    as the last thing they do on every exit path, a panic included. *)
Theorem deadline_cancelled_last (op : operation T) (s : store) :
  has_deadline op = true ->
  exists evs, st_trace (run op s).2 = (st_trace s ++ evs) ++ [EvCancel].
Proof.
  assert (Hnil : forall t : list event, t ++ [EvCancel] = (t ++ []) ++ [EvCancel])
    by (intros t; rewrite app_nil_r; reflexivity).
  destruct op as [i|i|i d doc|i d doc|i d]; simpl; intros Hd; try discriminate.
  - go_run. destruct (st_req s) as [m|]; go_run; [|eexists; apply Hnil].
    destruct (json_Marshal _) as [e|reqJSON]; go_run;
      [eexists; f_equal; rewrite <- ?app_assoc; reflexivity|].
    destruct (search_Do _ _) as [e|res]; go_run;
      [eexists; f_equal; rewrite <- ?app_assoc; reflexivity|].
    destruct (200 <? StatusCode res); go_run;
      [eexists; f_equal; rewrite <- ?app_assoc; reflexivity|].
    destruct (json_Decode _ _) as [[e|] result']; go_run;
      [eexists; f_equal; rewrite <- ?app_assoc; reflexivity|].
    match goal with |- context [calMetadata ?s1] =>
      pose proof (calMetadata_frame s1) as (_ & _ & Ht & Hx);
      destruct (calMetadata s1) as [[[]|p|c] s2]
    end; go_run; cbn [st_req st_trace fst snd] in Ht, Hx;
      [| |destruct (Hx c); reflexivity];
      rewrite Ht; eexists; f_equal; rewrite <- ?app_assoc; reflexivity.
  - go_run. destruct (st_req s) as [m|]; go_run; [|eexists; apply Hnil].
    destruct (json_Marshal _) as [e|reqJSON]; go_run;
      [eexists; f_equal; rewrite <- ?app_assoc; reflexivity|].
    destruct (search_Do _ _) as [e|res]; go_run;
      [eexists; f_equal; rewrite <- ?app_assoc; reflexivity|].
    destruct (200 <? StatusCode res); go_run;
      [eexists; f_equal; rewrite <- ?app_assoc; reflexivity|].
    destruct (json_Decode _ _) as [[e|] result']; go_run;
      eexists; f_equal; rewrite <- ?app_assoc; reflexivity.
  - go_run. destruct (index_Do _ _ _) as [e|res]; go_run;
      [eexists; f_equal; rewrite <- ?app_assoc; reflexivity|].
    destruct (400 <=? StatusCode res); go_run;
      eexists; f_equal; rewrite <- ?app_assoc; reflexivity.
  - go_run. destruct (delete_Do _ _) as [e|res]; go_run;
      [eexists; f_equal; rewrite <- ?app_assoc; reflexivity|].
    destruct (400 <=? StatusCode res); go_run;
      eexists; f_equal; rewrite <- ?app_assoc; reflexivity.
Qed.
End Facade.

(** ** Bulk ingestion: when the call returns *)

Section BulkFacts.
Context {json : Json} {bulk : BulkEngine}
        {T : Type} {doc_able : OpenSearchDocumentAble T}.

Ltac bulk_run :=
  cbv beta iota zeta delta
    [InsertBulk insertBulk indexer_Add indexer_Close defer bind get modify
     trace logger_Error logger_Info error_Error throw ret os_Exit emit];
  cbn [st_req st_result st_meta st_trace fst snd bx_queue bx_added bx_stats
       item_Index item_DocumentID item_Body item_OnSuccess item_OnFailure].

Lemma flush_items_returns q st s :
  Forall callback_returns q -> exists st' s', flush_items q st s = (Ret st', s').
Proof.
  intros Hq. revert st s.
  induction Hq as [|[fate item] q Hcb _ IH]; intros st s; simpl.
  - do 2 eexists. reflexivity.
  - unfold callback_returns in Hcb. simpl in Hcb.
    destruct fate as [e|res|res err|]; try apply IH; unfold bind.
    + destruct (Hcb s) as [s' ->]. apply IH.
    + destruct (Hcb s) as [s' ->]. apply IH.
Qed.

Lemma insertBulk_returns indexer indexName content s :
  failures_carry_error ->
  Forall callback_returns (bx_queue indexer) ->
  exists indexer' s',
    insertBulk indexer indexName content s = (Ret indexer', s') /\
    Forall callback_returns (bx_queue indexer').
Proof.
  intros Hne Hq. bulk_run.
  destruct (json_Marshal (ToDoc content)) as [e|b]; bulk_run;
    destruct (bulk_fate _ _ _ _) as [e'|res|res [err|]|] eqn:Hf; bulk_run;
    first
      [ destruct (Hne _ _ _ _ _ Hf)
      | do 2 eexists; split; [reflexivity | assumption]
      | do 2 eexists; split; [reflexivity|];
        apply Forall_app; split; [assumption|];
        constructor; [|constructor];
        first [exact I | intros s0; eexists; reflexivity] ].
Qed.

Lemma insertBulk_each_returns contentList indexer indexName s :
  failures_carry_error ->
  Forall callback_returns (bx_queue indexer) ->
  exists indexer' s',
    insertBulk_each indexer indexName contentList s = (Ret indexer', s') /\
    Forall callback_returns (bx_queue indexer').
Proof.
  intros Hne. revert indexer s.
  induction contentList as [|content rest IH]; intros indexer s Hq; simpl.
  - do 2 eexists. split; [reflexivity | assumption].
  - unfold bind.
    destruct (insertBulk_returns indexer indexName content s Hne Hq)
      as (indexer1 & s1 & -> & Hq1).
    apply IH, Hq1.
Qed.

(** X17.  When the indexer can be created and no item is reported failed
    with a nil error, InsertBulk returns nil, whatever else happens to the
    items: marshalling errors, refused submissions, failed or lost items
    and an error of the final flush are logged or counted, never
    returned. *)
Lemma InsertBulk_returns_nil indexName contentList s :
  bulk_New indexName = None ->
  failures_carry_error ->
  exists s', InsertBulk indexName contentList s = (Ret None, s').
Proof.
  intros Hnew Hne. unfold InsertBulk. rewrite Hnew. unfold bind at 1.
  destruct (insertBulk_each_returns contentList (mkIndexer [] 0 (mkStats 0 0))
              indexName s Hne ltac:(constructor)) as (indexer & s1 & -> & Hq).
  unfold bind at 1. unfold indexer_Close. unfold bind at 1.
  destruct (flush_items_returns (bx_queue indexer) (bx_stats indexer) s1 Hq)
    as (st & s2 & ->).
  bulk_run.
  destruct (bulk_Close indexName), (0 <? NumFailed st); bulk_run;
    eexists; reflexivity.
Qed.

(** A failed creation of the indexer ends the process. *)
Lemma InsertBulk_fatal indexName contentList s err :
  bulk_New indexName = Some err ->
  (InsertBulk indexName contentList s).1 = Exit 1.
Proof. intros Hnew. unfold InsertBulk. rewrite Hnew. reflexivity. Qed.

(** One round of the loop: the document is handed to the indexer once,
    the call returns, and the item that is queued has callbacks that
    return unless the failure callback is given a nil error. *)
Lemma insertBulk_step indexer indexName content s :
  exists evs q,
    insertBulk indexer indexName content s =
      (Ret (mkIndexer (bx_queue indexer ++ q) (S (bx_added indexer)) (bx_stats indexer)),
       mkStore (st_req s) (st_result s) (st_meta s) (st_trace s ++ evs)) /\
    bulk_added evs = [(indexName, GetID content, body_of content)] /\
    Forall (fun qi => (exists n d b, qi.1 = bulk_fate n indexName d b) /\
                      ((forall res, qi.1 <> ItemFailed res None) -> callback_returns qi)) q /\
    ((forall n d b e, bulk_fate n indexName d b <> AddRefused e) -> length q = 1%nat).
Proof.
  unfold body_of. bulk_run.
  destruct (json_Marshal (ToDoc content)) as [e|b]; bulk_run;
    destruct (bulk_fate _ _ _ _) as [e'|res|res [err|]|] eqn:Hf; bulk_run;
    lazymatch type of Hf with
    | _ = AddRefused _ =>
        eexists; exists []; rewrite app_nil_r;
        split; [rewrite <- ?app_assoc; reflexivity|];
        split; [reflexivity|]; split; [solve [constructor]|];
        intros Hno; destruct (Hno _ _ _ _ Hf)
    | _ =>
        eexists; eexists [_];
        split; [rewrite <- ?app_assoc; reflexivity|];
        split; [reflexivity|]; split; [|reflexivity];
        constructor; [|solve [constructor]];
        split; [do 3 eexists; cbn [fst]; symmetry; exact Hf|];
        intros Hnn; unfold callback_returns;
        cbn [fst snd item_OnSuccess item_OnFailure];
        lazymatch type of Hf with
        | _ = ItemLost => exact I
        | _ = ItemFailed _ None => exfalso; apply (Hnn res); reflexivity
        | _ => intros s0; eexists; reflexivity
        end
    end.
Qed.

Lemma insertBulk_each_run contentList indexer indexName s :
  exists evs q,
    insertBulk_each indexer indexName contentList s =
      (Ret (mkIndexer (bx_queue indexer ++ q)
                      (bx_added indexer + length contentList)%nat (bx_stats indexer)),
       mkStore (st_req s) (st_result s) (st_meta s) (st_trace s ++ evs)) /\
    bulk_added evs = map (fun c => (indexName, GetID c, body_of c)) contentList /\
    Forall (fun qi => (exists n d b, qi.1 = bulk_fate n indexName d b) /\
                      ((forall res, qi.1 <> ItemFailed res None) -> callback_returns qi)) q /\
    ((forall n d b e, bulk_fate n indexName d b <> AddRefused e) ->
     length q = length contentList).
Proof.
  revert indexer s.
  induction contentList as [|content rest IH]; intros indexer s; simpl.
  - exists [], []. rewrite !app_nil_r, Nat.add_0_r.
    destruct indexer, s. repeat split. constructor.
  - destruct (insertBulk_step indexer indexName content s)
      as (evs1 & q1 & Hrun & Hadd1 & Hq1 & Hlen1).
    unfold bind. rewrite Hrun.
    edestruct IH as (evs2 & q2 & Hrest & Hadd2 & Hq2 & Hlen2).
    rewrite Hrest. cbn [bx_queue bx_added bx_stats st_req st_result st_meta st_trace].
    exists (evs1 ++ evs2), (q1 ++ q2).
    split; [rewrite !app_assoc, Nat.add_succ_r; reflexivity|].
    split; [unfold bulk_added in *; rewrite omap_app, Hadd1, Hadd2; reflexivity|].
    split; [apply Forall_app; split; assumption|].
    intros Hno. rewrite length_app, Hlen1, Hlen2 by assumption. reflexivity.
Qed.

(** X11.  The loop of InsertBulk hands every document to the indexer
    exactly once, in the order of the list, and always runs to its end:
    a document that cannot be marshalled is still submitted, with an empty
    body, and a refused submission does not stop the documents after
    it. *)
Theorem insertBulk_each_submits_all contentList indexer indexName s :
  exists indexer' s' evs,
    insertBulk_each indexer indexName contentList s = (Ret indexer', s') /\
    st_trace s' = st_trace s ++ evs /\
    bulk_added evs = map (fun c => (indexName, GetID c, body_of c)) contentList.
Proof.
  destruct (insertBulk_each_run contentList indexer indexName s)
    as (evs & q & Hrun & Hadd & _).
  do 2 eexists. exists evs. split; [exact Hrun|]. split; [reflexivity | exact Hadd].
Qed.

Lemma flush_items_indexed q st s :
  Forall (fun qi => (exists res, qi.1 = ItemIndexed res) /\ callback_returns qi) q ->
  exists st' s', flush_items q st s = (Ret st', s') /\ NumFailed st' = NumFailed st.
Proof.
  intros Hq. revert st s.
  induction Hq as [|[fate item] q [[res Hf] Hcb] _ IH]; intros st s; simpl.
  - do 2 eexists. split; reflexivity.
  - simpl in Hf. subst fate. unfold callback_returns in Hcb. simpl in Hcb.
    unfold bind. destruct (Hcb s) as [s1 ->].
    destruct (IH (count_flushed st) s1) as (st' & s' & -> & Hn).
    do 2 eexists. split; [reflexivity | exact Hn].
Qed.

Lemma flush_items_failed q st s :
  Forall (fun qi => (exists res e, qi.1 = ItemFailed res (Some e)) /\ callback_returns qi) q ->
  0 <= NumFailed st < 2 ^ 64 ->
  exists st' s',
    flush_items q st s = (Ret st', s') /\
    NumFailed st' = (NumFailed st + Z.of_nat (length q)) mod 2 ^ 64 /\
    NumFlushed st' = NumFlushed st.
Proof.
  intros Hq. revert st s.
  induction Hq as [|[fate item] q [(res & e & Hf) Hcb] _ IH]; intros st s Hst; simpl.
  - do 2 eexists. split; [reflexivity|]. split; [|reflexivity].
    rewrite Z.add_0_r, Z.mod_small by lia. reflexivity.
  - simpl in Hf. subst fate. unfold callback_returns in Hcb. simpl in Hcb.
    unfold bind. destruct (Hcb s) as [s1 ->].
    destruct (IH (count_failed st) s1) as (st' & s' & -> & Hn & Hfl).
    { simpl. apply Z.mod_pos_bound. lia. }
    do 2 eexists. split; [reflexivity|]. split; [|exact Hfl].
    rewrite Hn. simpl NumFailed.
    rewrite Zplus_mod_idemp_l. f_equal. lia.
Qed.

(** X12.  When the indexer reports every item as indexed, InsertBulk
    returns nil and its last log entry is the success summary, whatever
    the final flush returns. *)
Theorem InsertBulk_all_indexed_reports_success indexName contentList s :
  bulk_New indexName = None ->
  (forall n d b, exists res, bulk_fate n indexName d b = ItemIndexed res) ->
  exists t s',
    InsertBulk indexName contentList s = (Ret None, s') /\
    st_trace s' =
      t ++ [EvLog InfoLevel "successfully insert bulk document"
                  [zap_String "index_name" indexName]].
Proof.
  intros Hnew Hall. unfold InsertBulk. rewrite Hnew. unfold bind at 1.
  destruct (insertBulk_each_run contentList (mkIndexer [] 0 (mkStats 0 0)) indexName s)
    as (evs & q & -> & _ & Hq & _).
  unfold bind at 1. unfold indexer_Close. unfold bind at 1.
  cbn [bx_queue bx_stats app].
  edestruct (flush_items_indexed q (mkStats 0 0)) as (st & s2 & -> & Hn).
  { eapply Forall_impl; [exact Hq|]. intros qi [(n & d & b & Hf) Hcb].
    destruct (Hall n d b) as [res Hres]. rewrite Hres in Hf.
    split; [eauto|]. apply Hcb. intros res'. rewrite Hf. discriminate. }
  simpl in Hn. bulk_run. rewrite Hn.
  destruct (bulk_Close indexName); bulk_run; do 2 eexists; split; reflexivity.
Qed.

(** X13.  When the indexer reports every item as failed with an error,
    InsertBulk still returns nil; each failure has gone to the logger and
    the last log entry is the aggregate error with the two counters, no
    item flushed and every item failed. *)
Theorem InsertBulk_all_failed_reports_counts indexName contentList s :
  bulk_New indexName = None ->
  (forall n d b, exists res e, bulk_fate n indexName d b = ItemFailed res (Some e)) ->
  contentList <> [] ->
  Z.of_nat (length contentList) < 2 ^ 64 ->
  exists t s',
    InsertBulk indexName contentList s = (Ret None, s') /\
    st_trace s' =
      t ++ [EvLog ErrorLevel "inserting some document failed"
                  [zap_Error (Some "inserting some document failed"%string);
                   zap_String "index_name" indexName;
                   zap_Uint64 "num_flush" 0;
                   zap_Uint64 "num_failed" (Z.of_nat (length contentList))]].
Proof.
  intros Hnew Hall Hne Hlen. unfold InsertBulk. rewrite Hnew. unfold bind at 1.
  destruct (insertBulk_each_run contentList (mkIndexer [] 0 (mkStats 0 0)) indexName s)
    as (evs & q & -> & _ & Hq & Hqlen).
  unfold bind at 1. unfold indexer_Close. unfold bind at 1.
  cbn [bx_queue bx_stats app].
  edestruct (flush_items_failed q (mkStats 0 0)) as (st & s2 & -> & Hn & Hfl).
  { eapply Forall_impl; [exact Hq|]. intros qi [(n & d & b & Hf) Hcb].
    destruct (Hall n d b) as (res & e & Hres). rewrite Hres in Hf.
    split; [eauto|]. apply Hcb. intros res'. rewrite Hf. discriminate. }
  { simpl. lia. }
  rewrite Hqlen in Hn.
  2: { intros n d b e. destruct (Hall n d b) as (res & e' & ->). discriminate. }
  simpl in Hn, Hfl. rewrite Z.mod_small in Hn by lia.
  assert (Hpos : (0 <? NumFailed st) = true).
  { apply Z.ltb_lt. rewrite Hn. destruct contentList; [contradiction|]. simpl. lia. }
  bulk_run. rewrite Hpos, Hn, Hfl.
  destruct (bulk_Close indexName); bulk_run; do 2 eexists; split; reflexivity.
Qed.
End BulkFacts.

Lemma calMetadata_itemCount_independent :
  ItemCount (st_meta (calMetadata (platform := amd64)
    (store_of None (envelope (25 # 1) [VNil; VNil; VNil; VNil; VNil]) (meta_per_page 10))).2) = 5.
Proof. vm_compute. reflexivity. Qed.

Lemma Search_injects_from_size_witness :
  exists evs,
    st_req (Search (platform := amd64) (accessors := page_accessors)
                   (json := json_const some_body (envelope (25 # 1) []))
                   (engine := engine_status 200 some_body)
                   "docs" (query_store 2 10)).2
    = Some {[ "query"%string := VString "tea"; "from"%string := VInt 10;
              "size"%string := VInt 10 ]} /\
    submitted evs = [(["docs"%string], some_body)].
Proof.
  destruct (Search_injects_from_size (platform := amd64) (accessors := page_accessors)
              (json := json_const some_body (envelope (25 # 1) []))
              (engine := engine_status 200 some_body)
              "docs" (query_store 2 10)
              {[ "query"%string := VString "tea"; "size"%string := VInt 500 ]})
    as (evs & Hreq & _ & Hsub & _).
  - reflexivity.
  - exists evs. split; [rewrite Hreq; vm_compute; reflexivity | exact Hsub].
Defined.

Lemma Suggest_forces_size_10_witness :
  exists evs,
    st_req (Suggest (json := json_const some_body ∅) (engine := engine_status 200 some_body)
                    "docs" (query_store 1 10)).2
    = Some {[ "query"%string := VString "tea"; "size"%string := VInt 10 ]} /\
    submitted evs = [(["docs"%string], some_body)].
Proof.
  destruct (Suggest_forces_size_10 (json := json_const some_body ∅)
              (engine := engine_status 200 some_body)
              "docs" (query_store 1 10)
              {[ "query"%string := VString "tea"; "size"%string := VInt 500 ]})
    as (evs & Hreq & _ & Hsub & _).
  - reflexivity.
  - exists evs. split; [rewrite Hreq; vm_compute; reflexivity | exact Hsub].
Defined.

Lemma error_status_branch_panics_witness :
  exists s',
    Delete (engine := engine_status 500 some_body) "docs" "7" (query_store 1 10)
    = (Panic NilDereference, s') /\
    logged (st_trace s') = [].
Proof.
  apply (error_status_branch_panics (platform := amd64) (accessors := page_accessors)
           (json := json_const some_body ∅) (engine := engine_status 500 some_body)
           (doc_able := text_document)
           (OpDelete "docs" "7") (query_store 1 10) (mkResponse 500 some_body)).
  - reflexivity.
  - reflexivity.
Defined.

Lemma Search_malformed_envelope_panics_witness :
  exists p s',
    Search (platform := amd64) (accessors := page_accessors)
           (json := json_const some_body envelope_without_total)
           (engine := engine_status 200 some_body)
           "docs" (query_store 1 10)
    = (Panic p, s') /\
    st_result s' = envelope_without_total /\
    closed_bodies (st_trace s') = [some_body].
Proof.
  apply (Search_malformed_envelope_panics (platform := amd64) (accessors := page_accessors)
           (json := json_const some_body envelope_without_total)
           (engine := engine_status 200 some_body)
           "docs" (query_store 1 10)
           {[ "query"%string := VString "tea"; "size"%string := VInt 500 ]}
           envelope_without_total (mkResponse 200 some_body)).
  - reflexivity.
  - reflexivity.
  - simpl. lia.
  - vm_compute. reflexivity.
  - vm_compute. reflexivity.
Defined.

(** C3, as stated, fails: the engine answers 200 with an envelope that
    has no [hits.total.value]; Search does not return an error, it
    panics on the unchecked type assertion. *)
Lemma Search_malformed_envelope_no_error :
  let r := Search (platform := amd64) (accessors := page_accessors)
                  (json := json_const some_body envelope_without_total)
                  (engine := engine_status 200 some_body)
                  "docs" (query_store 1 10) in
  well_formed (st_result r.2) = false /\
  r.1 = Panic InterfaceConversion /\
  ~ (exists e, r.1 = Ret (Some e)).
Proof.
  vm_compute. split; [reflexivity|]. split; [reflexivity|].
  intros [e He]. discriminate He.
Qed.

(** C5 on the code: with the status codes 404 and 201 Search and Suggest
    do not return the error "Invalid query"; they panic on [err.Error()]
    with the nil transport error. *)
Theorem query_error_status_panics :
  (Search (platform := amd64) (accessors := page_accessors)
          (json := json_const some_body ∅) (engine := engine_status 404 some_body)
          "docs" (query_store 1 10)).1 = Panic NilDereference /\
  (Suggest (json := json_const some_body ∅) (engine := engine_status 404 some_body)
           "docs" (query_store 1 10)).1 = Panic NilDereference /\
  (Search (platform := amd64) (accessors := page_accessors)
          (json := json_const some_body ∅) (engine := engine_status 201 some_body)
          "docs" (query_store 1 10)).1 = Panic NilDereference /\
  (Suggest (json := json_const some_body ∅) (engine := engine_status 201 some_body)
           "docs" (query_store 1 10)).1 = Panic NilDereference.
Proof. vm_compute. repeat split. Qed.

(** C6 on the code: with the status code 404 Insert, Update and Delete do
    not return "insert failed", "update failed" or "delete failed"; they
    panic on [err.Error()] with the nil transport error.  With the status
    code 200 they return nil. *)
Theorem single_document_error_status_panics :
  (Insert (engine := engine_status 404 some_body) (doc_able := text_document)
          "docs" "7" "tea"%string (query_store 1 10)).1 = Panic NilDereference /\
  (Update (engine := engine_status 404 some_body)
          "docs" "7" {[ "title"%string := VString "tea" ]} (query_store 1 10)).1
    = Panic NilDereference /\
  (Delete (engine := engine_status 404 some_body)
          "docs" "7" (query_store 1 10)).1 = Panic NilDereference /\
  (Insert (engine := engine_status 200 some_body) (doc_able := text_document)
          "docs" "7" "tea"%string (query_store 1 10)).1 = Ret None.
Proof. vm_compute. repeat split. Qed.

(** C9 on the code: with the status code 404 the response body of Search
    and of Suggest is never closed; with 200 it is closed once. *)
Theorem error_status_leaves_body_open :
  closed_bodies (st_trace
    (Search (platform := amd64) (accessors := page_accessors)
            (json := json_const some_body ∅) (engine := engine_status 404 some_body)
            "docs" (query_store 1 10)).2) = [] /\
  closed_bodies (st_trace
    (Suggest (json := json_const some_body ∅) (engine := engine_status 404 some_body)
             "docs" (query_store 1 10)).2) = [] /\
  closed_bodies (st_trace
    (Suggest (json := json_const some_body ∅) (engine := engine_status 200 some_body)
             "docs" (query_store 1 10)).2) = [some_body].
Proof. vm_compute. repeat split. Qed.

(** C2 on the code: one document whose item the engine rejects, reported
    to [OnFailure] with a nil error, makes the failure callback panic on
    [err.Error()]; InsertBulk does not return nil and nothing is logged. *)
Theorem InsertBulk_engine_failure_panics :
  let r := InsertBulk (json := json_const some_body ∅)
             (bulk := bulk_const
                (ItemFailed (mkResponseItem "mapper_parsing_exception" "failed to parse") None))
             (doc_able := text_document)
             "docs" ["tea"%string] (query_store 1 10) in
  r.1 = Panic NilDereference /\ logged (st_trace r.2) = [].
Proof. vm_compute. split; reflexivity. Qed.

Example InsertBulk_all_indexed :
  (InsertBulk (json := json_const some_body ∅)
     (bulk := bulk_const (ItemIndexed (mkResponseItem "" "")))
     (doc_able := text_document)
     "docs" ["tea"%string; "milk"%string] (query_store 1 10)).1 = Ret None.
Proof. vm_compute. reflexivity. Qed.

(** ** calMetadata: edge cases and what it leaves alone *)

Section CalMetadataEdges.
Context {platform : GoPlatform}.

Ltac cal_run :=
  cbv beta iota zeta delta
    [calMetadata bind get modify throw ret assert_map assert_float64 assert_slice
     int_quo int_rem set_meta];
  cbn [st_req st_result st_meta st_trace fst snd].

Lemma envelope_total_inv (env : gmap string value) (f : Q) :
  envelope_total env = Some f ->
  exists hits total,
    env !! "hits" = Some (VMap hits) /\
    hits !! "total" = Some (VMap total) /\
    total !! "value" = Some (VFloat64 f).
Proof.
  unfold envelope_total.
  destruct (env !! "hits") as [[| | | | | |hits|]|]; try discriminate.
  destruct (hits !! "total") as [[| | | | | |total|]|] eqn:Ht; try discriminate.
  destruct (total !! "value") as [[| | |f'| | | |]|] eqn:Hv; try discriminate.
  intros [= ->]. exists hits, total. repeat split; assumption.
Qed.

(** X7.  With [ItemsPerPage] zero the division panics: [TotalItem] has
    been written by then, [TotalPage] and [ItemCount] keep the values they
    had. *)
Theorem calMetadata_zero_items_per_page (s : store) (f : Q) :
  envelope_total (st_result s) = Some f ->
  ItemsPerPage (st_meta s) = 0 ->
  calMetadata s =
    (Panic IntegerDivideByZero,
     set_meta (set_TotalItem (int_of_float64 f) (st_meta s)) s).
Proof.
  intros Htot Hp.
  destruct (envelope_total_inv _ _ Htot) as (hits & total & Hh & Hto & Hv).
  cal_run. rewrite Hh. cal_run. rewrite Hto. cal_run. rewrite Hv. cal_run.
  unfold set_TotalItem at 1. cbn [ItemsPerPage]. rewrite Hp. reflexivity.
Qed.

(** X8.  When the total is there but [hits.hits] is missing or not a
    sequence, the panic comes after [TotalItem] and [TotalPage] have been
    written: [TotalPage] is left at the bare quotient, without the
    increment for a remainder, and [ItemCount] keeps its old value. *)
Theorem calMetadata_missing_hits_partial (s : store) (f : Q) :
  envelope_total (st_result s) = Some f ->
  well_formed (st_result s) = false ->
  ItemsPerPage (st_meta s) <> 0 ->
  calMetadata s =
    (Panic InterfaceConversion,
     set_meta (set_TotalPage (wrap_int (int_of_float64 f `quot` ItemsPerPage (st_meta s)))
                             (set_TotalItem (int_of_float64 f) (st_meta s))) s).
Proof.
  intros Htot Hwf Hp.
  destruct (envelope_total_inv _ _ Htot) as (hits & total & Hh & Hto & Hv).
  unfold well_formed in Hwf. rewrite Hh, Hto in Hwf.
  cal_run. rewrite Hh. cal_run. rewrite Hto. cal_run. rewrite Hv. cal_run.
  unfold set_TotalItem at 1 3. cbn [ItemsPerPage].
  destruct (Z.eqb_spec (ItemsPerPage (st_meta s)) 0) as [|_]; [contradiction|].
  cal_run.
  destruct (hits !! "hits") as [[| | | | |items| |]|]; cal_run; try reflexivity.
  rewrite Hv in Hwf. discriminate.
Qed.

(** X9.  A completed computation depends on the envelope and on
    [ItemsPerPage] only: running it again on its own result changes
    nothing. *)
Theorem calMetadata_idempotent (s s1 : store) :
  calMetadata s = (Ret tt, s1) -> calMetadata s1 = (Ret tt, s1).
Proof.
  intros Hrun.
  destruct (well_formed (st_result s)) eqn:Hwf.
  - destruct (well_formed_inv _ Hwf) as (hits & total & f & Hh & Hto & Hv & Hi & Htot).
    destruct (Z.eq_dec (ItemsPerPage (st_meta s)) 0) as [Hz|Hp].
    + exfalso. revert Hrun.
      cal_run. rewrite Hh. cal_run. rewrite Hto. cal_run. rewrite Hv. cal_run.
      unfold set_TotalItem at 1. cbn [ItemsPerPage]. rewrite Hz. discriminate.
    + rewrite (calMetadata_run s hits total f _ Hh Hto Hv Hi Hp) in Hrun.
      injection Hrun as <-.
      rewrite (calMetadata_run _ hits total f (envelope_hits (st_result s)));
        try assumption.
      reflexivity.
  - destruct (calMetadata_malformed s Hwf) as (p & s' & Hp & _).
    rewrite Hp in Hrun. discriminate.
Qed.

(** X10.  On every path, a panic included, calMetadata writes nothing but
    [TotalItem], [TotalPage] and [ItemCount]: the envelope, [ItemsPerPage]
    and the requested page are as before, and nothing is logged. *)
Theorem calMetadata_writes_derived_fields_only (s : store) :
  st_result (calMetadata s).2 = st_result s /\
  ItemsPerPage (st_meta (calMetadata s).2) = ItemsPerPage (st_meta s) /\
  CurrentPage (st_meta (calMetadata s).2) = CurrentPage (st_meta s) /\
  st_trace (calMetadata s).2 = st_trace s.
Proof.
  cal_run.
  repeat match goal with
         | |- context [@lookup _ _ _ _ ?k ?m] => destruct (m !! k) as [[]|]; cal_run
         | |- context [?a =? ?b] => destruct (a =? b); cal_run
         end; repeat split.
Qed.
End CalMetadataEdges.

(** ** CreateIndex *)

Section IndicesFacts.
Context {indices : IndicesClient}.

(** X14.  CreateIndex reports every failure through its result: it never
    panics and leaves the store alone.  It returns the transport error as
    it is, an error made of the response's text when the response is an
    error response, and nil in the one remaining case. *)
Theorem CreateIndex_reports_by_value (indexName : string) (indexBody : bytes) (s : store) :
  exists r,
    CreateIndex indexName indexBody s = (Ret r, s) /\
    (r = None <->
       exists res, indices_Create indexName indexBody = inr res /\
                   response_IsError res = false) /\
    (forall e, indices_Create indexName indexBody = inl e -> r = Some e) /\
    (forall res, indices_Create indexName indexBody = inr res ->
                 response_IsError res = true -> r = Some (response_String res)).
Proof.
  unfold CreateIndex, ret.
  destruct (indices_Create indexName indexBody) as [e|res].
  - eexists. split; [reflexivity|]. repeat split; try discriminate.
    + intros (res & Hres & _). discriminate.
    + intros e' [= ->]. reflexivity.
  - destruct (response_IsError res) eqn:Herr.
    + eexists. split; [reflexivity|]. repeat split; try discriminate.
      * intros (res' & [= <-] & Hf). congruence.
      * intros res' [= <-] _. reflexivity.
    + eexists. split; [reflexivity|]. repeat split; try discriminate.
      * intros _. eauto.
      * intros res' [= <-] Ht. congruence.
Qed.
End IndicesFacts.

(** ** The further properties on explicit inputs *)

Lemma transport_error_returned_witness :
  exists evs,
    (Insert (engine := engine_down "connection refused") (doc_able := text_document)
            "docs" "7" "tea"%string (query_store 1 10)).1
    = Ret (Some "connection refused"%string) /\
    logged evs = [(ErrorLevel, "connection refused"%string,
                   [zap_Error (Some "connection refused"%string);
                    zap_String "index_name" "docs"; zap_String "doc_id" "7"])].
Proof.
  destruct (transport_error_returned (platform := amd64) (accessors := page_accessors)
              (json := json_const some_body ∅)
              (engine := engine_down "connection refused") (doc_able := text_document)
              (OpInsert "docs" "7" "tea"%string) (query_store 1 10) "connection refused")
    as (evs & Hr & _ & Hl & _).
  - reflexivity.
  - exists evs. split; [exact Hr | exact Hl].
Defined.

Lemma marshal_error_returned_witness :
  exists evs,
    (Suggest (json := json_unmarshalable "unsupported type")
             (engine := engine_status 200 some_body)
             "docs" (query_store 1 10)).1
    = Ret (Some "unsupported type"%string) /\
    submitted evs = [].
Proof.
  destruct (marshal_error_returned (platform := amd64) (accessors := page_accessors)
              (json := json_unmarshalable "unsupported type")
              (engine := engine_status 200 some_body) (doc_able := text_document)
              (OpSuggest "docs") (query_store 1 10) "unsupported type")
    as (evs & Hr & _ & Hs & _).
  - reflexivity.
  - exists evs. split; [exact Hr | exact Hs].
Defined.

Lemma Search_success_witness :
  exists s',
    Search (platform := amd64) (accessors := page_accessors)
           (json := json_const some_body (envelope (25 # 1) [VNil; VNil; VNil]))
           (engine := engine_status 200 some_body)
           "docs" (query_store 3 10)
    = (Ret None, s') /\
    TotalPage (st_meta s') = 3 /\ ItemCount (st_meta s') = 3 /\
    closed_bodies (st_trace s') = [some_body].
Proof.
  destruct (Search_success (platform := amd64) (accessors := page_accessors)
              (json := json_const some_body (envelope (25 # 1) [VNil; VNil; VNil]))
              (engine := engine_status 200 some_body)
              "docs" (query_store 3 10)
              {[ "query"%string := VString "tea"; "size"%string := VInt 500 ]}
              (envelope (25 # 1) [VNil; VNil; VNil]) (mkResponse 200 some_body))
    as (f & reqJSON & Hf & _ & Hrun).
  - reflexivity.
  - reflexivity.
  - simpl. lia.
  - vm_compute. reflexivity.
  - vm_compute. reflexivity.
  - simpl. lia.
  - eexists. split; [exact Hrun|].
    vm_compute in Hf. injection Hf as <-. vm_compute. repeat split.
Defined.

Lemma Search_decode_error_witness :
  exists s',
    Search (platform := amd64) (accessors := page_accessors)
           (json := json_undecodable some_body "unexpected EOF" ∅)
           (engine := engine_status 200 some_body)
           "docs" (query_store 1 10)
    = (Ret (Some "unexpected EOF"%string), s') /\
    logged (st_trace s') = [] /\ st_meta s' = st_meta (query_store 1 10).
Proof.
  destruct (Search_decode_error (platform := amd64) (accessors := page_accessors)
              (json := json_undecodable some_body "unexpected EOF" ∅)
              (engine := engine_status 200 some_body)
              "docs" (query_store 1 10)
              {[ "query"%string := VString "tea"; "size"%string := VInt 500 ]}
              ∅ (mkResponse 200 some_body) "unexpected EOF")
    as (reqJSON & _ & Hrun).
  - reflexivity.
  - reflexivity.
  - simpl. lia.
  - vm_compute. reflexivity.
  - eexists. split; [exact Hrun|]. split; reflexivity.
Defined.

Lemma Suggest_returns_decode_result_witness :
  exists s',
    Suggest (json := json_undecodable some_body "unexpected EOF" ∅)
            (engine := engine_status 200 some_body)
            "docs" (query_store 1 10)
    = (Ret (Some "unexpected EOF"%string), s') /\
    logged (st_trace s') =
      [(ErrorLevel, "unexpected EOF"%string,
        [zap_Error (Some "unexpected EOF"%string); zap_String "index_name" "docs"])].
Proof.
  destruct (Suggest_returns_decode_result
              (json := json_undecodable some_body "unexpected EOF" ∅)
              (engine := engine_status 200 some_body)
              "docs" (query_store 1 10)
              {[ "query"%string := VString "tea"; "size"%string := VInt 500 ]}
              ∅ (mkResponse 200 some_body) (Some "unexpected EOF"%string))
    as (reqJSON & _ & Hrun).
  - reflexivity.
  - reflexivity.
  - simpl. lia.
  - vm_compute. reflexivity.
  - eexists. split; [exact Hrun|]. reflexivity.
Defined.

Lemma deadline_cancelled_last_witness :
  exists evs,
    st_trace (Delete (engine := engine_status 500 some_body) "docs" "7"
                     (query_store 1 10)).2
    = ([] ++ evs) ++ [EvCancel].
Proof.
  apply (deadline_cancelled_last (platform := amd64) (accessors := page_accessors)
           (json := json_const some_body ∅) (engine := engine_status 500 some_body)
           (doc_able := text_document) (OpDelete "docs" "7") (query_store 1 10)).
  reflexivity.
Defined.

Lemma nil_request_map_panics_witness :
  (Search (platform := amd64) (accessors := page_accessors)
          (json := json_const some_body ∅) (engine := engine_status 200 some_body)
          "docs" (store_of None ∅ (meta_per_page 10))).1 = Panic AssignToNilMap /\
  submitted (st_trace
    (Suggest (json := json_const some_body ∅) (engine := engine_status 200 some_body)
             "docs" (store_of None ∅ (meta_per_page 10))).2) = [].
Proof.
  destruct (nil_request_map_panics (platform := amd64) (accessors := page_accessors)
              (json := json_const some_body ∅) (engine := engine_status 200 some_body)
              "docs" (store_of None ∅ (meta_per_page 10))) as [Hs Hg].
  - reflexivity.
  - rewrite Hs, Hg. split; reflexivity.
Defined.

Lemma single_document_success_witness :
  exists evs,
    Update (engine := engine_status 302 some_body)
           "docs" "7" {[ "title"%string := VString "tea" ]} (query_store 1 10)
    = (Ret None, mkStore (st_req (query_store 1 10)) (st_result (query_store 1 10))
                         (st_meta (query_store 1 10))
                         (st_trace (query_store 1 10) ++ evs)) /\
    logged evs = [(InfoLevel, "successfully update document"%string,
                   [zap_String "index_name" "docs"; zap_String "doc_id" "7"])].
Proof.
  apply (single_document_success (platform := amd64) (accessors := page_accessors)
           (json := json_const some_body ∅) (engine := engine_status 302 some_body)
           (doc_able := text_document)
           (OpUpdate "docs" "7" {[ "title"%string := VString "tea" ]})
           (query_store 1 10) (mkResponse 302 some_body)).
  - reflexivity.
  - simpl. lia.
Defined.

Lemma calMetadata_zero_items_per_page_witness :
  calMetadata (platform := amd64)
    (store_of None (envelope (25 # 1) [VNil]) (meta_per_page 0))
  = (Panic IntegerDivideByZero,
     store_of None (envelope (25 # 1) [VNil]) (mkMeta 0 0 25 1 0)).
Proof.
  rewrite (calMetadata_zero_items_per_page (platform := amd64)
             (store_of None (envelope (25 # 1) [VNil]) (meta_per_page 0)) (25 # 1)).
  - reflexivity.
  - vm_compute. reflexivity.
  - reflexivity.
Defined.

Lemma calMetadata_missing_hits_partial_witness :
  calMetadata (platform := amd64)
    (store_of None (envelope_without_hits (25 # 1)) (meta_per_page 10))
  = (Panic InterfaceConversion,
     store_of None (envelope_without_hits (25 # 1)) (mkMeta 10 0 25 1 2)).
Proof.
  rewrite (calMetadata_missing_hits_partial (platform := amd64)
             (store_of None (envelope_without_hits (25 # 1)) (meta_per_page 10)) (25 # 1)).
  - reflexivity.
  - vm_compute. reflexivity.
  - vm_compute. reflexivity.
  - simpl. lia.
Defined.

Lemma calMetadata_idempotent_witness :
  calMetadata (platform := amd64)
    (store_of None (envelope (25 # 1) [VNil]) (mkMeta 10 1 25 1 3))
  = (Ret tt, store_of None (envelope (25 # 1) [VNil]) (mkMeta 10 1 25 1 3)).
Proof.
  apply (calMetadata_idempotent (platform := amd64)
           (store_of None (envelope (25 # 1) [VNil]) (meta_per_page 10))).
  vm_compute. reflexivity.
Defined.

Lemma InsertBulk_returns_nil_witness :
  exists s',
    InsertBulk (json := json_const some_body ∅)
               (bulk := bulk_const (ItemFailed (mkResponseItem "" "") (Some "flush: EOF"%string)))
               (doc_able := text_document)
               "docs" ["tea"%string; "milk"%string] (query_store 1 10)
    = (Ret None, s').
Proof.
  apply (InsertBulk_returns_nil (json := json_const some_body ∅)
           (bulk := bulk_const (ItemFailed (mkResponseItem "" "") (Some "flush: EOF"%string)))
           (doc_able := text_document)).
  - reflexivity.
  - intros n i d b res. simpl. discriminate.
Defined.

Lemma InsertBulk_all_indexed_reports_success_witness :
  exists t s',
    InsertBulk (json := json_const some_body ∅)
               (bulk := bulk_const (ItemIndexed (mkResponseItem "" "")))
               (doc_able := text_document)
               "docs" ["tea"%string; "milk"%string] (query_store 1 10)
    = (Ret None, s') /\
    st_trace s' =
      t ++ [EvLog InfoLevel "successfully insert bulk document"
                  [zap_String "index_name" "docs"]].
Proof.
  apply (InsertBulk_all_indexed_reports_success (json := json_const some_body ∅)
           (bulk := bulk_const (ItemIndexed (mkResponseItem "" "")))
           (doc_able := text_document)).
  - reflexivity.
  - intros n d b. eexists. reflexivity.
Defined.

Lemma InsertBulk_all_failed_reports_counts_witness :
  exists t s',
    InsertBulk (json := json_const some_body ∅)
               (bulk := bulk_const (ItemFailed (mkResponseItem "" "") (Some "flush: EOF"%string)))
               (doc_able := text_document)
               "docs" ["tea"%string; "milk"%string] (query_store 1 10)
    = (Ret None, s') /\
    st_trace s' =
      t ++ [EvLog ErrorLevel "inserting some document failed"
                  [zap_Error (Some "inserting some document failed"%string);
                   zap_String "index_name" "docs";
                   zap_Uint64 "num_flush" 0;
                   zap_Uint64 "num_failed" 2]].
Proof.
  apply (InsertBulk_all_failed_reports_counts (json := json_const some_body ∅)
           (bulk := bulk_const (ItemFailed (mkResponseItem "" "") (Some "flush: EOF"%string)))
           (doc_able := text_document)
           "docs" ["tea"%string; "milk"%string] (query_store 1 10)).
  - reflexivity.
  - intros n d b. do 2 eexists. reflexivity.
  - discriminate.
  - simpl. lia.
Defined.

Example CreateIndex_status_400 :
  (CreateIndex (indices := indices_status 400) "docs" some_body (query_store 1 10)).1
  = Ret (Some "[error response]"%string).
Proof. reflexivity. Qed.
